(** * Advanced-search query-builder constants

    A shallow embedding of the query-builder configuration module of the
    OpenMetadata UI (the constants file that exports [emptyJsonTree],
    [autocomplete] and [getQbConfigs]), followed by the tabs and the query
    string of the database schema details and by the handlers of the form
    that adds a glossary term.

    The module is configuration-as-data: object literals, object spreads
    and one [switch].  JavaScript objects are modelled as finite maps from
    property names to values, an object literal as the left-to-right
    processing of its entries (a spread copies own properties, a later
    entry overwrites an earlier one). *)

From Stdlib Require Import Ascii.
From stdpp Require Import gmap strings list fin_maps pretty.

Set Warnings "-register-all".
Local Open Scope string_scope.

(** ** JavaScript values *)

(** The values that occur in the module.  A function value is kept in
    defunctionalised form: [VAutocomplete si sf] is the closure returned by
    [autocomplete(si, sf)], [VExtern f] an imported function. *)
Inductive Val :=
| VUndefined
| VNull
| VBool (b : bool)
| VNum (n : Z)
| VStr (s : string)
| VArr (l : list Val)
| VObj (o : gmap string Val)
| VAutocomplete (searchIndex suggestField : Val)
| VExtern (name : string).

(** Own enumerable properties copied by a spread [...v]: those of an
    object; [undefined], [null] and the other primitives contribute none.
    (No array or string is spread in the module.) *)
Definition own (v : Val) : gmap string Val :=
  match v with
  | VObj o => o
  | _ => ∅
  end.

(** Property read [v.k]; a missing property reads as [undefined].  Every
    read in the module is either on an object literal of the module or on
    [BaseConfig], which the source types as [BasicConfig]. *)
Definition get (v : Val) (k : string) : Val :=
  match v with
  | VObj o => default VUndefined (o !! k)
  | _ => VUndefined
  end.

(** The entries of an object literal, in source order. *)
Inductive Entry :=
| Spread (v : Val)
| Key (k : string) (v : Val).

Notation "k =: v" := (Key k v) (at level 60, no associativity).

Definition define (acc : gmap string Val) (e : Entry) : gmap string Val :=
  match e with
  | Spread v => own v ∪ acc
  | Key k v => <[k := v]> acc
  end.

Definition literal (es : list Entry) : Val := VObj (foldl define ∅ es).

(** [a ?? b] *)
Definition nullish (a b : Val) : Val :=
  match a with
  | VUndefined | VNull => b
  | _ => a
  end.

(** [v === s] for a string [s]: strict equality with a primitive string
    holds for that very string only. *)
Definition strict_eq_str (v : Val) (s : string) : bool :=
  match v with
  | VStr s' => bool_decide (s' = s)
  | _ => false
  end.

(** lodash [uniq]: keeps the first occurrence of each element, in order,
    comparing with SameValueZero.  It is applied to an array of objects
    here, and SameValueZero on objects is identity, so the elements are
    compared by their addresses. *)
Fixpoint uniq_from (seen : list positive) (l : list positive) : list positive :=
  match l with
  | [] => []
  | x :: l' =>
      if bool_decide (x ∈ seen) then uniq_from seen l'
      else x :: uniq_from (x :: seen) l'
  end.

Definition uniq (l : list positive) : list positive := uniq_from [] l.

(** ** Imports of the module *)

(** Modelled from the spec: the [SearchIndex] enum, whose declaration is not
    part of the sources at hand.  Its members are category tokens (strings);
    the members that the module names are listed and their values are left
    open. *)
Class SearchIndexEnum := {
  MLMODEL : string;
  PIPELINE : string;
  DASHBOARD : string;
  TABLE : string;
  TOPIC : string;
  USER : string;
  TEAM : string;
  TAG : string;
  GLOSSARY : string;
}.

(** Modelled from the spec: the [SuggestionField] enum (declaration not at
    hand), the optional sub-field token of a suggestion request; again the
    members that the module names, with their values left open. *)
Class SuggestionFieldEnum := {
  ROOT : string;
  SERVICE : string;
  DATABASE : string;
  SCHEMA : string;
  COLUMN : string;
}.

(** Modelled from the spec: [suggestQuery] (its module is not at hand) takes
    a request object and resolves to an array of objects each exposing a
    [text] property.  A call [suggestQuery(req).then(k)] is the request
    that is dispatched together with what the continuation makes of the
    response.  In the response, [store] gives the object held at each
    address and the array lists addresses, so that the same object may
    occur twice and two distinct objects may hold the same text. *)
Record SuggestCall := {
  request : Val;
  on_response : (positive → Val) → list positive → Val;
}.

(** ** Reading a configuration *)

(** [cfg.fields] *)
Definition fields_of (cfg : Val) : Val := get cfg "fields".

(** [v.k1.k2...] *)
Definition get_path (v : Val) (ks : list string) : Val := foldl get v ks.

(** ["a.b.c".split(".")] *)
Fixpoint path_parts (s : string) : list string :=
  match s with
  | EmptyString => [""]
  | String c s' =>
      if Ascii.eqb c "."%char then "" :: path_parts s'
      else match path_parts s' with
           | p :: ps => String c p :: ps
           | [] => [String c ""]
           end
  end.

(** The descriptor that a fields mapping holds for a dotted path.  The
    parts of the path are consumed from the left; the parts gathered so
    far, joined by dots, are looked up as one key (a key may itself contain
    a dot, as ['tags.tagFQN'] does); when the key of a part that is not the
    last one holds a descriptor with a [subfields] mapping, the rest of the
    path is resolved in that mapping. *)
Fixpoint field_at_parts (fields : gmap string Val) (prefix parts : list string)
  : option Val :=
  match parts with
  | [] => None
  | p :: rest =>
      let key := String.concat "." (prefix ++ [p]) in
      match rest with
      | [] => fields !! key
      | _ =>
          match fields !! key with
          | Some (VObj d) =>
              match d !! "subfields" with
              | Some (VObj sub) => field_at_parts sub [] rest
              | _ => field_at_parts fields (prefix ++ [p]) rest
              end
          | _ => field_at_parts fields (prefix ++ [p]) rest
          end
      end
  end.

Definition field_at (fields : Val) (path : string) : option Val :=
  field_at_parts (own fields) [] (path_parts path).

(** [d] is a descriptor of the mapping [fields], at any depth: an entry
    of the mapping itself or a descriptor of the [subfields] of one. *)
Inductive descriptor_of : Val → Val → Prop :=
| descriptor_top fields k d :
    own fields !! k = Some d → descriptor_of fields d
| descriptor_sub fields k d d' :
    own fields !! k = Some d →
    descriptor_of (get d "subfields") d' →
    descriptor_of fields d'.

(** The leaf value types of the registry. *)
Definition leaf_types : list string := ["boolean"; "text"; "select"].

(** The invariant of a descriptor: a ['!struct'] carries a non-empty
    [subfields] mapping, a leaf carries none. *)
Definition descriptor_ok (d : Val) : Prop :=
  (get d "type" = VStr "!struct" →
     ∃ sub, own d !! "subfields" = Some (VObj sub) ∧ sub ≠ ∅) ∧
  (∀ ty, ty ∈ leaf_types → get d "type" = VStr ty →
     own d !! "subfields" = None).

(** The invariant as a check of one descriptor, and of all descriptors of
    a mapping down to a given depth (no entry may lie deeper). *)
Definition descriptor_okb (d : Val) : bool :=
  match get d "type" with
  | VStr ty =>
      if String.eqb ty "!struct" then
        match own d !! "subfields" with
        | Some (VObj sub) =>
            match map_to_list sub with [] => false | _ => true end
        | _ => false
        end
      else if existsb (String.eqb ty) leaf_types then
        match own d !! "subfields" with None => true | Some _ => false end
      else true
  | _ => true
  end.

Fixpoint check_descriptors (depth : nat) (fields : Val) : bool :=
  match depth with
  | O => match map_to_list (own fields) with [] => true | _ => false end
  | S depth' =>
      forallb
        (λ kd, descriptor_okb kd.2 &&
               check_descriptors depth' (get kd.2 "subfields"))
        (map_to_list (own fields))
  end.

(** The empty rule of a filter tree. *)
Definition empty_rule : Val :=
  literal [
    "type" =: VStr "rule";
    "properties" =: literal [
      "field" =: VNull;
      "operator" =: VNull;
      "value" =: VArr [];
      "valueSrc" =: VArr [] ] ].

(** [node] is a group whose [children1] holds the single child [child]
    under the key [k]. *)
Definition group_with_only_child (node : Val) (k : string) (child : Val) : Prop :=
  get node "type" = VStr "group" ∧
  own (get node "children1") = {[ k := child ]}.

(** The number of nodes of type ['group'] in a filter tree of depth at
    most [depth]. *)
Fixpoint count_groups (depth : nat) (node : Val) : nat :=
  match depth with
  | O => 0
  | S depth' =>
      (if strict_eq_str (get node "type") "group" then 1 else 0) +
      map_fold (λ _ child acc, count_groups depth' child + acc) 0
        (own (get node "children1"))
  end.

(** The mapping [fields] holds, for the dotted path [p.1], a descriptor
    of value type [p.2]. *)
Definition has_descriptor (fields : Val) (p : string * string) : Prop :=
  ∃ d, field_at fields p.1 = Some d ∧ get d "type" = VStr p.2.

(** The dotted paths of the registry, each with its value type. *)
Definition common_paths : list (string * string) :=
  [ ("deleted", "boolean");
    ("owner.name", "select");
    ("owner.displayName", "text");
    ("owner.type", "select");
    ("tags.tagFQN", "select");
    ("tier.tagFQN", "select") ].

Definition service_paths : list (string * string) :=
  [ ("service.name", "select");
    ("service.deleted", "boolean") ].

Definition table_paths : list (string * string) :=
  [ ("database.name", "select");
    ("databaseSchema.name", "select");
    ("name", "select");
    ("columns.name", "select");
    ("columns.dataType", "text");
    ("columns.constraint", "text") ].

(** The table-specific fields with all their subfields. *)
Definition table_only_paths : list string :=
  [ "database"; "database.name"; "database.deleted";
    "databaseSchema"; "databaseSchema.name"; "databaseSchema.deleted";
    "name";
    "columns"; "columns.name"; "columns.dataType"; "columns.constraint" ].

(** The value that the entries of an object literal, read from the last
    one backwards, give to the key [k], when an explicit entry for [k]
    comes after every spread. *)
Fixpoint last_key (rev_entries : list Entry) (k : string) : option Val :=
  match rev_entries with
  | Key k' v :: r => if String.eqb k' k then Some v else last_key r k
  | _ => None
  end.

(** All descriptors of a mapping down to [depth], in the order of the
    entries, each followed by the descriptors of its [subfields]; and the
    check that no entry lies deeper than [depth]. *)
Fixpoint descriptors (depth : nat) (fields : Val) : list Val :=
  match depth with
  | O => []
  | S depth' =>
      flat_map
        (λ kd : string * Val,
           kd.2 :: descriptors depth' (get kd.2 "subfields"))
        (map_to_list (own fields))
  end.

Fixpoint no_deeper (depth : nat) (fields : Val) : bool :=
  match depth with
  | O => match map_to_list (own fields) with [] => true | _ => false end
  | S depth' =>
      forallb
        (λ kd : string * Val, no_deeper depth' (get kd.2 "subfields"))
        (map_to_list (own fields))
  end.

(** The keys that the explicit entries of an object literal set. *)
Fixpoint keys_set (es : list Entry) : list string :=
  match es with
  | [] => []
  | Spread _ :: es' => keys_set es'
  | Key k _ :: es' => k :: keys_set es'
  end.

(** The entries after the first one are all explicit. *)
Fixpoint all_keys (es : list Entry) : bool :=
  match es with
  | [] => true
  | Spread _ :: _ => false
  | Key _ _ :: es' => all_keys es'
  end.

(** The pair that the autocomplete adapter makes of a suggestion text. *)
Definition suggestion (text : Val) : Val :=
  literal [ "value" =: text; "title" =: text ].

(** The places of the base configuration that [initialConfigWithoutFields]
    and [getQbConfigs] rebuild with a spread, each with the properties that
    the literal sets explicitly there. *)
Definition overrides : list (list string * list string) :=
  [ ([], ["types"; "widgets"; "operators"; "settings"; "fields"]);
    (["types"], ["multiselect"; "select"; "text"]);
    (["types"; "multiselect"], ["widgets"; "excludeOperators"; "valueSources"]);
    (["types"; "multiselect"; "widgets"], ["text"]);
    (["types"; "select"], ["widgets"; "excludeOperators"; "valueSources"]);
    (["types"; "select"; "widgets"], ["text"]);
    (["types"; "text"], ["valueSources"]);
    (["widgets"], ["multiselect"; "select"; "text"]);
    (["widgets"; "multiselect"],
       ["showSearch"; "showCheckboxes"; "useAsyncSearch"; "useLoadMore"]);
    (["widgets"; "select"],
       ["showSearch"; "showCheckboxes"; "useAsyncSearch"; "useLoadMore"]);
    (["widgets"; "text"], []);
    (["operators"], ["like"]);
    (["operators"; "like"], ["elasticSearchQueryType"]);
    (["settings"],
       ["showLabels"; "canReorder"; "renderSize"; "fieldLabel";
        "operatorLabel"; "showNot"; "valueLabel"; "renderButton"]) ].

(** The registry mapping [m] holds the descriptor [d] under the key [k]. *)
Definition holds (m : Val) (k : string) (d : Val) : Prop :=
  own m !! k = Some d.

(** [v === undefined], and [v] is an array with at least one item. *)
Definition is_undefined (v : Val) : bool :=
  match v with
  | VUndefined => true
  | _ => false
  end.

Definition nonempty_array (v : Val) : bool :=
  match v with
  | VArr (_ :: _) => true
  | _ => false
  end.

(** The [key] of a dropdown item. *)
Definition item_key (item : Val) : Val := get item "key".

(** The fields mapping holds a descriptor for the key of a dropdown
    item. *)
Definition item_resolves (fields item : Val) : Prop :=
  ∃ k d, item_key item = VStr k ∧ field_at fields k = Some d.

(** ** The database schema details module *)

(** [databaseSchemaDetailsTabs]; the member [TabSpecificField.ACTIVITY_FEED]
    of an enum whose declaration is not at hand is a parameter. *)
Definition databaseSchemaDetailsTabs (ACTIVITY_FEED : Val) : list Val :=
  [ literal [ "name" =: VStr "Tables"; "path" =: VStr "tables" ];
    literal [ "name" =: VStr "Activity Feeds";
              "path" =: VStr "activity_feed";
              "field" =: ACTIVITY_FEED ] ].

(** [getCurrentDatabaseSchemaDetailsTab]: [currentTab] starts at 1; the
    case ['activity_feed'] sets it to 2, the case ['tables'] and the
    default set it to 1. *)
Definition getCurrentDatabaseSchemaDetailsTab (tab : Val) : Z :=
  let currentTab := 1%Z in
  let currentTab :=
    if strict_eq_str tab "activity_feed" then 2%Z
    else if strict_eq_str tab "tables" then 1%Z
    else 1%Z in
  currentTab.

(** A checked property read [v.k] on an entity: the read throws on
    [undefined] and [null]; the values that are not objects lie outside
    the declared types.  [None] stands for both. *)
Definition read (v : Val) (k : string) : option Val :=
  match v with
  | VObj o => Some (default VUndefined (o !! k))
  | _ => None
  end.

(** The text that a template literal makes of a primitive; numbers,
    arrays, objects and functions are not modelled ([None]). *)
Definition template_text (v : Val) : option string :=
  match v with
  | VStr s => Some s
  | VUndefined => Some "undefined"
  | VNull => Some "null"
  | VBool true => Some "true"
  | VBool false => Some "false"
  | _ => None
  end.

(** [getQueryStringForSchemaTables] *)
Definition getQueryStringForSchemaTables
    (serviceName databaseName schemaName : Val) : option string :=
  service ← read serviceName "name" ≫= template_text;
  database ← read databaseName "name" ≫= template_text;
  schema ← read schemaName "name" ≫= template_text;
  Some ("(service.name:" +:+ service +:+
        ") AND (database.name:" +:+ database +:+
        ") AND (databaseSchema.name:" +:+ schema +:+ ")").

(** The character [c] occurs in [s]. *)
Fixpoint has_char (c : ascii) (s : string) : bool :=
  match s with
  | EmptyString => false
  | String c' s' => Ascii.eqb c' c || has_char c s'
  end.

(** ** The form that adds a glossary term *)

(** [s.split(sep)] for a separator of one character. *)
Fixpoint split_on (sep : ascii) (s : string) : list string :=
  match s with
  | EmptyString => [""]
  | String c s' =>
      if Ascii.eqb c sep then "" :: split_on sep s'
      else match split_on sep s' with
           | p :: ps => String c p :: ps
           | [] => [String c ""]
           end
  end.

(** Truthiness, and [a || b]. *)
Definition truthy (v : Val) : bool :=
  match v with
  | VUndefined | VNull | VBool false | VStr "" | VNum 0 => false
  | _ => true
  end.

Definition or_else (a b : Val) : Val := if truthy a then a else b.

(** lodash [isEmpty]: strings and arrays of length 0, objects without own
    properties, and every other value. *)
Definition isEmpty (v : Val) : bool :=
  match v with
  | VStr s => bool_decide (s = "")
  | VArr l => match l with [] => true | _ => false end
  | VObj o => match map_to_list o with [] => true | _ => false end
  | _ => true
  end.

(** [v === true] *)
Definition is_true_value (v : Val) : bool :=
  match v with
  | VBool true => true
  | _ => false
  end.

Module AddGlossaryTerm.

(** The state of the component: one field for each [useState] that has a
    setter (the description is never set and stays empty). *)
Record State := {
  showErrorMsg : Val;
  name : string;
  showRevieweModal : bool;
  showRelatedTermsModal : bool;
  reviewer : list Val;
  synonyms : string;
  referances : list Val;
}.

Definition initial : State :=
  {| showErrorMsg := literal [ "name" =: VBool false ];
     name := "";
     showRevieweModal := false;
     showRelatedTermsModal := false;
     reviewer := [];
     synonyms := "";
     referances := [] |}.

Section Component.

(** [String.prototype.trim] *)
Variable trim : string → string.

(** The properties of the component, and the value of
    [markdownRef.current?.getEditorContent()]. *)
Variable allowAccess : bool.
Variable parentGlossaryData glossaryData : Val.
Variable editorContent : Val.

Definition onRelatedTermsModalCancel (st : State) : State :=
  {| showErrorMsg := showErrorMsg st; name := name st;
     showRevieweModal := showRevieweModal st;
     showRelatedTermsModal := false;
     reviewer := reviewer st; synonyms := synonyms st;
     referances := referances st |}.

Definition onReviewerModalCancel (st : State) : State :=
  {| showErrorMsg := showErrorMsg st; name := name st;
     showRevieweModal := false;
     showRelatedTermsModal := showRelatedTermsModal st;
     reviewer := reviewer st; synonyms := synonyms st;
     referances := referances st |}.

Definition handleReviewerSave (new_reviewer : list Val) (st : State) : State :=
  onReviewerModalCancel
    {| showErrorMsg := showErrorMsg st; name := name st;
       showRevieweModal := showRevieweModal st;
       showRelatedTermsModal := showRelatedTermsModal st;
       reviewer := new_reviewer; synonyms := synonyms st;
       referances := referances st |}.

(** [pre.filter((option) => option.name !== removedTag)] *)
Definition handleOptionRemove (removedTag : string) (st : State) : State :=
  {| showErrorMsg := showErrorMsg st; name := name st;
     showRevieweModal := showRevieweModal st;
     showRelatedTermsModal := showRelatedTermsModal st;
     reviewer :=
       List.filter
         (λ option, negb (strict_eq_str (get option "name") removedTag))
         (reviewer st);
     synonyms := synonyms st;
     referances := referances st |}.

(** [handleValidation], on a change event of the input named [eleName]
    with the value [value]. *)
Definition handleValidation (value eleName : string) (st : State) : State :=
  if negb allowAccess then st
  else
    let name_error := get (showErrorMsg st) "name" in
    let '(new_name, new_synonyms, name_error) :=
      if String.eqb eleName "name" then (value, synonyms st, VBool false)
      else if String.eqb eleName "synonyms" then (name st, value, name_error)
      else (name st, synonyms st, name_error) in
    {| showErrorMsg :=
         literal [ Spread (showErrorMsg st); "name" =: name_error ];
       name := new_name;
       showRevieweModal := showRevieweModal st;
       showRelatedTermsModal := showRelatedTermsModal st;
       reviewer := reviewer st;
       synonyms := new_synonyms;
       referances := referances st |}.

Definition addReferenceFields (st : State) : State :=
  {| showErrorMsg := showErrorMsg st; name := name st;
     showRevieweModal := showRevieweModal st;
     showRelatedTermsModal := showRelatedTermsModal st;
     reviewer := reviewer st; synonyms := synonyms st;
     referances :=
       referances st ++
       [ literal [ "name" =: VStr ""; "endpoint" =: VStr "" ] ] |}.

(** [newFormValues.splice(i, 1)] on a copy of the list, for an index
    [i] of the rendered rows. *)
Definition removeReferenceFields (i : nat) (st : State) : State :=
  {| showErrorMsg := showErrorMsg st; name := name st;
     showRevieweModal := showRevieweModal st;
     showRelatedTermsModal := showRelatedTermsModal st;
     reviewer := reviewer st; synonyms := synonyms st;
     referances := take i (referances st) ++ drop (S i) (referances st) |}.

(** [validateForm]: the new state and the returned flag. *)
Definition validateForm (st : State) : State * bool :=
  let errMsg := literal [ "name" =: VBool (bool_decide (trim (name st) = "")) ] in
  ({| showErrorMsg := errMsg; name := name st;
      showRevieweModal := showRevieweModal st;
      showRelatedTermsModal := showRelatedTermsModal st;
      reviewer := reviewer st; synonyms := synonyms st;
      referances := referances st |},
   negb (existsb is_true_value (map_to_list (own errMsg)).*2)).

(** [(ref) => !isEmpty(ref.endpoint) && !isEmpty(ref.name)] *)
Definition is_complete (ref : Val) : bool :=
  negb (isEmpty (get ref "endpoint")) && negb (isEmpty (get ref "name")).

(** [handleSave]: the new state and the data handed to [onSave], if it is
    called. *)
Definition handleSave (st : State) : State * option Val :=
  let updatedReference := List.filter is_complete (referances st) in
  let '(st', valid) := validateForm st in
  if valid then
    let data :=
      literal [
        "name" =: VStr (name st);
        "displayName" =: VStr (name st);
        "description" =: or_else editorContent VUndefined;
        "reviewers" =: VArr (map (λ r, literal [
                                   "id" =: get r "id";
                                   "type" =: get r "type" ])
                               (reviewer st));
        "references" =:
          match updatedReference with
          | r :: _ => r
          | [] => VUndefined
          end;
        "parent" =:
          (if negb (is_undefined parentGlossaryData) then
             literal [ "type" =: VStr "glossaryTerm";
                       "id" =: get parentGlossaryData "id" ]
           else VUndefined);
        "synonyms" =:
          (if negb (bool_decide (synonyms st = "")) then
             VArr (map VStr (split_on ","%char (synonyms st)))
           else VUndefined);
        "glossary" =: literal [
          "id" =: get glossaryData "id";
          "type" =: VStr "glossary" ] ] in
    (st', Some data)
  else (st', None).

End Component.

End AddGlossaryTerm.

(** ** Sample instances *)

(** An assignment of pairwise distinct tokens to the enum members. *)
Definition sample_SearchIndex : SearchIndexEnum :=
  {| MLMODEL := "mlmodel_search_index";
     PIPELINE := "pipeline_search_index";
     DASHBOARD := "dashboard_search_index";
     TABLE := "table_search_index";
     TOPIC := "topic_search_index";
     USER := "user_search_index";
     TEAM := "team_search_index";
     TAG := "tag_search_index";
     GLOSSARY := "glossary_search_index" |}.

Definition sample_SuggestionField : SuggestionFieldEnum :=
  {| ROOT := "suggest";
     SERVICE := "service_suggest";
     DATABASE := "database_suggest";
     SCHEMA := "schema_suggest";
     COLUMN := "column_suggest" |}.

(** A base configuration with the members that the module reads. *)
Definition sample_BaseConfig : Val :=
  literal [
    "conjunctions" =: literal [ "AND" =: literal []; "OR" =: literal [] ];
    "types" =: literal [
      "multiselect" =: literal [
        "defaultOperator" =: VStr "multiselect_equals";
        "widgets" =: literal [
          "multiselect" =: literal [
            "operators" =: VArr [VStr "multiselect_equals"; VStr "is_null"] ] ];
        "valueSources" =: VArr [VStr "value"; VStr "field"; VStr "func"] ];
      "select" =: literal [
        "mainWidget" =: VStr "select";
        "widgets" =: literal [
          "select" =: literal [
            "operators" =: VArr [VStr "select_equals"; VStr "is_null"] ] ] ];
      "text" =: literal [ "defaultOperator" =: VStr "equal" ] ];
    "widgets" =: literal [
      "multiselect" =: literal [ "type" =: VStr "multiselect" ];
      "select" =: literal [ "type" =: VStr "select" ];
      "text" =: literal [ "type" =: VStr "text" ] ];
    "operators" =: literal [
      "like" =: literal [ "label" =: VStr "Contains" ] ];
    "settings" =: literal [ "fieldSeparator" =: VStr "." ] ].

(** The identity translation. *)
Definition sample_t (key : string) : string := key.

(** A generator of pairwise distinct identifiers. *)
Definition sample_uuid (n : nat) : string := pretty n.

(** Trimming of the spaces at both ends. *)
Fixpoint drop_spaces (s : string) : string :=
  match s with
  | EmptyString => EmptyString
  | String c s' => if Ascii.eqb c " "%char then drop_spaces s' else s
  end.

Definition sample_trim (s : string) : string :=
  String.rev (drop_spaces (String.rev (drop_spaces s))).

(** A filled form: a name with spaces around it, two synonyms, a reviewer
    and three reference rows of which the first is incomplete. *)
Definition sample_form : AddGlossaryTerm.State :=
  {| AddGlossaryTerm.showErrorMsg := literal [ "name" =: VBool false ];
     AddGlossaryTerm.name := " Term ";
     AddGlossaryTerm.showRevieweModal := false;
     AddGlossaryTerm.showRelatedTermsModal := false;
     AddGlossaryTerm.reviewer :=
       [ literal [ "id" =: VStr "1"; "type" =: VStr "user";
                   "name" =: VStr "ann" ] ];
     AddGlossaryTerm.synonyms := "a, b";
     AddGlossaryTerm.referances :=
       [ literal [ "name" =: VStr ""; "endpoint" =: VStr "http://x" ];
         literal [ "name" =: VStr "doc"; "endpoint" =: VStr "http://d" ];
         literal [ "name" =: VStr "wiki"; "endpoint" =: VStr "http://w" ] ] |}.

(** The same form with a name of spaces only. *)
Definition sample_blank_form : AddGlossaryTerm.State :=
  {| AddGlossaryTerm.showErrorMsg := literal [ "name" =: VBool false ];
     AddGlossaryTerm.name := "   ";
     AddGlossaryTerm.showRevieweModal := false;
     AddGlossaryTerm.showRelatedTermsModal := false;
     AddGlossaryTerm.reviewer := AddGlossaryTerm.reviewer sample_form;
     AddGlossaryTerm.synonyms := "a, b";
     AddGlossaryTerm.referances := AddGlossaryTerm.referances sample_form |}.

(** A response of the suggestion service with three distinct objects, two
    of which hold the same text. *)
Definition sample_store (r : positive) : Val :=
  match r with
  | 1%positive => literal [ "text" =: VStr "alpha" ]
  | 2%positive => literal [ "text" =: VStr "alpha" ]
  | _ => literal [ "text" =: VStr "beta" ]
  end.

Definition sample_resp : list positive := [1; 2; 3]%positive.

Section AdvancedSearch.

Context `{SearchIndexEnum} `{SuggestionFieldEnum}.

(** [i18next.t] *)
Variable t : string → string.

(** [AntdConfig as BasicConfig], the base configuration of the
    query-builder library. *)
Variable BaseConfig : Val.

(** [QbUtils.uuid]: [uuid n] is the identifier returned by the call
    made when [n] identifiers have been generated before. *)
Variable uuid : nat → string.

Definition fresh (n : nat) : string * nat := (uuid n, S n).

(** [emptyJsonTree], built when [n] identifiers have been generated.
    The [id] of the root is evaluated first, then the computed key of
    the entry of its [children1], then the computed key inside. *)
Definition emptyJsonTree_from (n : nat) : Val * nat :=
  let '(id0, n) := fresh n in
  let '(id1, n) := fresh n in
  let '(id2, n) := fresh n in
  (literal [
     "id" =: VStr id0;
     "type" =: VStr "group";
     "properties" =: literal [
       "conjunction" =: VStr "AND";
       "not" =: VBool false ];
     "children1" =: literal [
       id1 =: literal [
         "type" =: VStr "group";
         "properties" =: literal [
           "conjunction" =: VStr "AND";
           "not" =: VBool false ];
         "children1" =: literal [
           id2 =: literal [
             "type" =: VStr "rule";
             "properties" =: literal [
               "field" =: VNull;
               "operator" =: VNull;
               "value" =: VArr [];
               "valueSrc" =: VArr [] ] ] ] ] ] ],
   n).

Definition emptyJsonTree (n : nat) : Val := fst (emptyJsonTree_from n).

(** [autocomplete(searchIndex, suggestField)(search)] *)
Definition autocomplete (searchIndex suggestField : Val) (search : Val)
  : SuggestCall :=
  {| request := literal [
       "query" =: nullish search (VStr "*");
       "searchIndex" =: searchIndex;
       "field" =: suggestField;
       "fetchSource" =: VBool false ];
     on_response := λ store resp, literal [
       "values" =: VArr (map (λ r,
                     let text := get (store r) "text" in
                     literal [ "value" =: text; "title" =: text ])
                   (uniq resp));
       "hasMore" =: VBool false ] |}.

Definition mainWidgetProps : Val :=
  literal [
    "fullWidth" =: VBool true;
    "valueLabel" =: VStr (t "label.criteria" +:+ ":") ].

Definition commonQueryBuilderFields : Val :=
  literal [
    "deleted" =: literal [
      "label" =: VStr "Deleted";
      "type" =: VStr "boolean";
      "defaultValue" =: VBool true ];
    "owner" =: literal [
      "label" =: VStr "Owner";
      "type" =: VStr "!struct";
      "subfields" =: literal [
        "name" =: literal [
          "label" =: VStr "username";
          "type" =: VStr "select";
          "mainWidgetProps" =: mainWidgetProps;
          "fieldSettings" =: literal [
            "asyncFetch" =:
              VAutocomplete (VArr [VStr USER; VStr TEAM]) VUndefined ] ];
        "displayName" =: literal [
          "label" =: VStr "name";
          "type" =: VStr "text";
          "mainWidgetProps" =: mainWidgetProps ];
        "type" =: literal [
          "label" =: VStr "type";
          "type" =: VStr "select";
          "mainWidgetProps" =: mainWidgetProps;
          "fieldSettings" =: literal [
            "listValues" =: VArr [
              literal [ "value" =: VStr "user"; "title" =: VStr "User" ];
              literal [ "value" =: VStr "team"; "title" =: VStr "Team" ] ] ] ] ] ];
    "tags.tagFQN" =: literal [
      "label" =: VStr "Tags";
      "type" =: VStr "select";
      "mainWidgetProps" =: mainWidgetProps;
      "fieldSettings" =: literal [
        "asyncFetch" =:
          VAutocomplete (VArr [VStr TAG; VStr GLOSSARY]) VUndefined ] ];
    "tier.tagFQN" =: literal [
      "label" =: VStr "Tier";
      "type" =: VStr "select";
      "mainWidgetProps" =: mainWidgetProps;
      "fieldSettings" =: literal [
        "asyncFetch" =:
          VAutocomplete (VArr [VStr TAG; VStr GLOSSARY]) VUndefined ] ] ].

Definition serviceQueryBuilderFields : Val :=
  literal [
    "service" =: literal [
      "label" =: VStr "Service";
      "type" =: VStr "!struct";
      "subfields" =: literal [
        "name" =: literal [
          "label" =: VStr "name";
          "type" =: VStr "select";
          "mainWidgetProps" =: mainWidgetProps;
          "fieldSettings" =: literal [
            "asyncFetch" =: VAutocomplete (VStr TABLE) (VStr SERVICE) ] ];
        "deleted" =: literal [
          "label" =: VStr "deleted";
          "type" =: VStr "boolean";
          "defaultValue" =: VBool true ] ] ] ].

Definition tableQueryBuilderFields : Val :=
  literal [
    "database" =: literal [
      "label" =: VStr "Database";
      "type" =: VStr "!struct";
      "subfields" =: literal [
        "name" =: literal [
          "label" =: VStr "name";
          "type" =: VStr "select";
          "mainWidgetProps" =: mainWidgetProps;
          "fieldSettings" =: literal [
            "asyncFetch" =: VAutocomplete (VStr TABLE) (VStr DATABASE) ] ];
        "deleted" =: literal [
          "label" =: VStr "deleted";
          "type" =: VStr "boolean";
          "defaultValue" =: VBool true ] ] ];
    "databaseSchema" =: literal [
      "label" =: VStr "Database Schema";
      "type" =: VStr "!struct";
      "subfields" =: literal [
        "name" =: literal [
          "label" =: VStr "name";
          "type" =: VStr "select";
          "mainWidgetProps" =: mainWidgetProps;
          "fieldSettings" =: literal [
            "asyncFetch" =: VAutocomplete (VStr TABLE) (VStr SCHEMA) ] ];
        "deleted" =: literal [
          "label" =: VStr "deleted";
          "type" =: VStr "boolean";
          "defaultValue" =: VBool true ] ] ];
    "name" =: literal [
      "label" =: VStr "Table";
      "type" =: VStr "select";
      "mainWidgetProps" =: mainWidgetProps;
      "fieldSettings" =: literal [
        "asyncFetch" =: VAutocomplete (VStr TABLE) (VStr ROOT) ] ];
    "columns" =: literal [
      "label" =: VStr "Column";
      "type" =: VStr "!struct";
      "subfields" =: literal [
        "name" =: literal [
          "label" =: VStr "name";
          "type" =: VStr "select";
          "mainWidgetProps" =: mainWidgetProps;
          "fieldSettings" =: literal [
            "asyncFetch" =: VAutocomplete (VStr TABLE) (VStr COLUMN) ] ];
        "dataType" =: literal [
          "label" =: VStr "data type";
          "type" =: VStr "text";
          "mainWidgetProps" =: mainWidgetProps ];
        "constraint" =: literal [
          "label" =: VStr "constraint";
          "type" =: VStr "text";
          "mainWidgetProps" =: mainWidgetProps ] ] ] ].

Definition initialConfigWithoutFields : Val :=
  literal [
    Spread BaseConfig;
    "types" =: literal [
      Spread (get BaseConfig "types");
      "multiselect" =: literal [
        Spread (get (get BaseConfig "types") "multiselect");
        "widgets" =: literal [
          Spread (get (get (get BaseConfig "types") "multiselect") "widgets");
          "text" =: literal [
            "operators" =: VArr [VStr "like"; VStr "not_like"] ] ];
        "excludeOperators" =: VArr [VStr "is_null"; VStr "is_not_null"];
        "valueSources" =: VArr [VStr "value"] ];
      "select" =: literal [
        Spread (get (get BaseConfig "types") "select");
        "widgets" =: literal [
          Spread (get (get (get BaseConfig "types") "select") "widgets");
          "text" =: literal [
            "operators" =: VArr [VStr "like"; VStr "not_like"] ] ];
        "excludeOperators" =: VArr [VStr "is_null"; VStr "is_not_null"];
        "valueSources" =: VArr [VStr "value"] ];
      "text" =: literal [
        Spread (get (get BaseConfig "types") "text");
        "valueSources" =: VArr [VStr "value"] ] ];
    "widgets" =: literal [
      Spread (get BaseConfig "widgets");
      "multiselect" =: literal [
        Spread (get (get BaseConfig "widgets") "multiselect");
        "showSearch" =: VBool true;
        "showCheckboxes" =: VBool true;
        "useAsyncSearch" =: VBool true;
        "useLoadMore" =: VBool false ];
      "select" =: literal [
        Spread (get (get BaseConfig "widgets") "select");
        "showSearch" =: VBool true;
        "showCheckboxes" =: VBool true;
        "useAsyncSearch" =: VBool true;
        "useLoadMore" =: VBool false ];
      "text" =: literal [
        Spread (get (get BaseConfig "widgets") "text") ] ];
    "operators" =: literal [
      Spread (get BaseConfig "operators");
      "like" =: literal [
        Spread (get (get BaseConfig "operators") "like");
        "elasticSearchQueryType" =: VStr "wildcard" ] ];
    "settings" =: literal [
      Spread (get BaseConfig "settings");
      "showLabels" =: VBool true;
      "canReorder" =: VBool false;
      "renderSize" =: VStr "medium";
      "fieldLabel" =: VStr (t "label.field-plural" +:+ ":");
      "operatorLabel" =: VStr (t "label.condition" +:+ ":");
      "showNot" =: VBool false;
      "valueLabel" =: VStr (t "label.criteria" +:+ ":");
      "renderButton" =: VExtern "renderAdvanceSearchButtons" ] ].

(** [getQbConfigs]: the [switch] tries its cases in source order with
    strict equality and falls to [default] when none matches.  The body
    only spreads constants of the module into fresh object literals, which
    cannot throw, so the function is total. *)
Definition getQbConfigs (searchIndex : Val) : Val :=
  if strict_eq_str searchIndex MLMODEL then
    literal [
      Spread initialConfigWithoutFields;
      "fields" =: literal [
        Spread commonQueryBuilderFields;
        Spread serviceQueryBuilderFields ] ]
  else if strict_eq_str searchIndex PIPELINE then
    literal [
      Spread initialConfigWithoutFields;
      "fields" =: literal [
        Spread commonQueryBuilderFields;
        Spread serviceQueryBuilderFields ] ]
  else if strict_eq_str searchIndex DASHBOARD then
    literal [
      Spread initialConfigWithoutFields;
      "fields" =: literal [
        Spread commonQueryBuilderFields;
        Spread serviceQueryBuilderFields ] ]
  else if strict_eq_str searchIndex TABLE then
    literal [
      Spread initialConfigWithoutFields;
      "fields" =: literal [
        Spread commonQueryBuilderFields;
        Spread serviceQueryBuilderFields;
        Spread tableQueryBuilderFields ] ]
  else if strict_eq_str searchIndex TOPIC then
    literal [
      Spread initialConfigWithoutFields;
      "fields" =: literal [
        Spread commonQueryBuilderFields;
        Spread serviceQueryBuilderFields ] ]
  else
    literal [
      Spread initialConfigWithoutFields;
      "fields" =: literal [
        Spread commonQueryBuilderFields ] ].

(** A call of a function value held in a field descriptor. *)
Definition call_asyncFetch (f search : Val) : option SuggestCall :=
  match f with
  | VAutocomplete searchIndex suggestField =>
      Some (autocomplete searchIndex suggestField search)
  | _ => None
  end.

(** The entity categories that [getQbConfigs] has a case for. *)
Definition supported : list Val :=
  [VStr MLMODEL; VStr PIPELINE; VStr DASHBOARD; VStr TABLE; VStr TOPIC].

(** The three shapes of configuration that [getQbConfigs] returns. *)
Definition common_config : Val :=
  literal [
    Spread initialConfigWithoutFields;
    "fields" =: commonQueryBuilderFields ].

Definition service_config : Val :=
  literal [
    Spread initialConfigWithoutFields;
    "fields" =: literal [
      Spread commonQueryBuilderFields;
      Spread serviceQueryBuilderFields ] ].

Definition table_config : Val :=
  literal [
    Spread initialConfigWithoutFields;
    "fields" =: literal [
      Spread commonQueryBuilderFields;
      Spread serviceQueryBuilderFields;
      Spread tableQueryBuilderFields ] ].

(** The quick-filter dropdown items; [[...a, ...b]] on arrays is
    concatenation. *)
Definition COMMON_DROPDOWN_ITEMS : list Val :=
  [ literal [ "label" =: VStr (t "label.owner"); "key" =: VStr "owner.name" ];
    literal [ "label" =: VStr (t "label.tag"); "key" =: VStr "tags.tagFQN" ];
    literal [ "label" =: VStr (t "label.service");
              "key" =: VStr "service.name" ] ].

Definition TABLE_DROPDOWN_ITEMS : list Val :=
  [ literal [ "label" =: VStr (t "label.column"); "key" =: VStr "columns.name" ];
    literal [ "label" =: VStr (t "label.schema");
              "key" =: VStr "databaseSchema.name" ];
    literal [ "label" =: VStr (t "label.database");
              "key" =: VStr "database.name" ] ].

Definition DASHBOARD_DROPDOWN_ITEMS : list Val :=
  [ literal [ "label" =: VStr (t "label.chart");
              "key" =: VStr "charts.displayName" ] ].

Definition PIPELINE_DROPDOWN_ITEMS : list Val :=
  [ literal [ "label" =: VStr (t "label.task");
              "key" =: VStr "tasks.displayName" ] ].

Definition ALL_DROPDOWN_ITEMS : list Val :=
  COMMON_DROPDOWN_ITEMS ++ TABLE_DROPDOWN_ITEMS ++
  DASHBOARD_DROPDOWN_ITEMS ++ PIPELINE_DROPDOWN_ITEMS.

Definition MISC_FIELDS : list string := ["owner.name"; "tags.tagFQN"].

(** ** Object literals *)

Lemma get_literal_last es k v : get (literal (es ++ [k =: v])) k = v.
Proof.
  unfold literal, get. rewrite foldl_app. simpl.
  by rewrite lookup_insert_eq.
Qed.

Lemma get_literal_skip es k k' v :
  k ≠ k' → get (literal (es ++ [k' =: v])) k = get (literal es) k.
Proof.
  intros Hne. unfold literal, get. rewrite foldl_app. simpl.
  by rewrite lookup_insert_ne.
Qed.

Lemma strict_eq_str_true v s : strict_eq_str v s = true ↔ v = VStr s.
Proof.
  destruct v; simpl; try (split; [discriminate | congruence]).
  rewrite bool_decide_eq_true. split; congruence.
Qed.

Lemma strict_eq_str_false v s : strict_eq_str v s = false ↔ v ≠ VStr s.
Proof.
  rewrite <- strict_eq_str_true. destruct (strict_eq_str v s); split; congruence.
Qed.

Lemma strict_eq_str_refl s : strict_eq_str (VStr s) s = true.
Proof. by apply strict_eq_str_true. Qed.

Lemma getQbConfigs_cases v :
  getQbConfigs v = common_config ∨
  getQbConfigs v = service_config ∨
  getQbConfigs v = table_config.
Proof.
  unfold getQbConfigs, common_config.
  repeat case_match; auto.
Qed.

Lemma fields_of_config init f :
  fields_of (literal [Spread init; "fields" =: f]) = f.
Proof. apply (get_literal_last [Spread init]). Qed.

(** C1: for every input value that is not one of the recognized entity
    categories (MLMODEL, PIPELINE, DASHBOARD, TABLE, TOPIC), [getQbConfigs]
    returns the common-only configuration: [initialConfigWithoutFields]
    with [fields] set to exactly the common field mapping. *)
Theorem getQbConfigs_unrecognized (v : Val) :
  v ∉ supported →
  getQbConfigs v = common_config ∧
  fields_of (getQbConfigs v) = commonQueryBuilderFields.
Proof.
  intros Hv. unfold supported in Hv.
  rewrite !not_elem_of_cons in Hv.
  destruct Hv as (Hm & Hp & Hd & Hta & Hto & _).
  assert (getQbConfigs v = common_config) as ->.
  { unfold getQbConfigs.
    apply strict_eq_str_false in Hm, Hp, Hd, Hta, Hto.
    rewrite Hm, Hp, Hd, Hta, Hto. reflexivity. }
  split; [done | apply fields_of_config].
Qed.

(** ** The field mappings of the three shapes *)

Lemma common_service_disjoint :
  own serviceQueryBuilderFields ##ₘ own commonQueryBuilderFields.
Proof.
  apply map_disjoint_dom_2, (bool_decide_unpack _). by vm_compute.
Qed.

Lemma table_disjoint :
  own tableQueryBuilderFields ##ₘ
    own serviceQueryBuilderFields ∪ own commonQueryBuilderFields.
Proof.
  apply map_disjoint_dom_2, (bool_decide_unpack _). by vm_compute.
Qed.

Lemma fields_of_service_config :
  own (fields_of service_config) =
    own serviceQueryBuilderFields ∪ own commonQueryBuilderFields.
Proof.
  unfold service_config. rewrite fields_of_config.
  unfold literal at 1. cbn [foldl define own].
  by rewrite (right_id_L ∅ (∪)).
Qed.

Lemma fields_of_table_config :
  own (fields_of table_config) =
    own tableQueryBuilderFields ∪
      (own serviceQueryBuilderFields ∪ own commonQueryBuilderFields).
Proof.
  unfold table_config. rewrite fields_of_config.
  unfold literal at 1. cbn [foldl define own].
  by rewrite (right_id_L ∅ (∪)).
Qed.

Lemma common_subseteq_fields v :
  own commonQueryBuilderFields ⊆ own (fields_of (getQbConfigs v)).
Proof.
  destruct (getQbConfigs_cases v) as [-> | [-> | ->]].
  - unfold common_config. by rewrite fields_of_config.
  - rewrite fields_of_service_config.
    apply map_union_subseteq_r, common_service_disjoint.
  - rewrite fields_of_table_config.
    apply map_union_subseteq_r', map_union_subseteq_r;
      [apply table_disjoint | apply common_service_disjoint].
Qed.

(** C2: for every supported entity category the fields mapping of the
    configuration returned by [getQbConfigs] is a superset of the common
    field mapping: each of the keys ['deleted'], ['owner'], ['tags.tagFQN']
    and ['tier.tagFQN'] is present with its common descriptor. *)
Theorem getQbConfigs_fields_superset_common (v : Val) :
  v ∈ supported →
  dom (own commonQueryBuilderFields)
    = {[ "deleted"; "owner"; "tags.tagFQN"; "tier.tagFQN" ]} ∧
  ∀ k d,
    own commonQueryBuilderFields !! k = Some d →
    own (fields_of (getQbConfigs v)) !! k = Some d.
Proof.
  intros _. split.
  - apply (bool_decide_unpack _). by vm_compute.
  - apply map_subseteq_spec, common_subseteq_fields.
Qed.

(** ** The base of every configuration *)

Lemma get_config_base init f k :
  k ≠ "fields" → get (literal [Spread init; "fields" =: f]) k = get init k.
Proof.
  intros Hk. unfold literal, get. cbn [foldl define].
  rewrite lookup_insert_ne, (right_id_L ∅ (∪)) by done.
  destruct init; try done; by rewrite lookup_empty.
Qed.

Lemma getQbConfigs_base v k :
  k ≠ "fields" → get (getQbConfigs v) k = get initialConfigWithoutFields k.
Proof.
  intros Hk.
  destruct (getQbConfigs_cases v) as [-> | [-> | ->]];
    by apply get_config_base.
Qed.

Lemma get_literal_key es k v :
  last_key (rev es) k = Some v → get (literal es) k = v.
Proof.
  induction es as [| e es IH] using rev_ind; [done |].
  rewrite rev_unit. destruct e as [x | k' v']; [done |]. cbn [last_key].
  destruct (String.eqb_spec k' k) as [-> | Hne].
  - intros [= ->]. apply get_literal_last.
  - intros Hk. rewrite get_literal_skip by done. by apply IH.
Qed.

Ltac read_literal := erewrite get_literal_key by reflexivity.

(** C5: for every supported entity category, the type settings of both
    ['multiselect'] and ['select'] in the configuration returned by
    [getQbConfigs] exclude the operators ['is_null'] and ['is_not_null']
    and restrict [valueSources] to exactly [['value']]. *)
Theorem getQbConfigs_select_types_literal_only (v : Val) (ty : string) :
  v ∈ supported →
  ty ∈ ["multiselect"; "select"] →
  get_path (getQbConfigs v) ["types"; ty; "excludeOperators"]
    = VArr [VStr "is_null"; VStr "is_not_null"] ∧
  get_path (getQbConfigs v) ["types"; ty; "valueSources"]
    = VArr [VStr "value"].
Proof.
  intros _ Hty. unfold get_path. cbn [foldl].
  rewrite getQbConfigs_base by discriminate.
  assert (get initialConfigWithoutFields "types" = literal [
    Spread (get BaseConfig "types");
    "multiselect" =: literal [
      Spread (get (get BaseConfig "types") "multiselect");
      "widgets" =: literal [
        Spread (get (get (get BaseConfig "types") "multiselect") "widgets");
        "text" =: literal [
          "operators" =: VArr [VStr "like"; VStr "not_like"] ] ];
      "excludeOperators" =: VArr [VStr "is_null"; VStr "is_not_null"];
      "valueSources" =: VArr [VStr "value"] ];
    "select" =: literal [
      Spread (get (get BaseConfig "types") "select");
      "widgets" =: literal [
        Spread (get (get (get BaseConfig "types") "select") "widgets");
        "text" =: literal [
          "operators" =: VArr [VStr "like"; VStr "not_like"] ] ];
      "excludeOperators" =: VArr [VStr "is_null"; VStr "is_not_null"];
      "valueSources" =: VArr [VStr "value"] ];
    "text" =: literal [
      Spread (get (get BaseConfig "types") "text");
      "valueSources" =: VArr [VStr "value"] ] ]) as ->.
  { unfold initialConfigWithoutFields. by read_literal. }
  rewrite !elem_of_cons in Hty.
  destruct Hty as [-> | [-> | Hty]]; [| | by apply elem_of_nil in Hty].
  - split; by do 2 read_literal.
  - split; by do 2 read_literal.
Qed.

(** C10: the configurations returned for MLMODEL, PIPELINE, DASHBOARD and
    TOPIC are equal: each is the base configuration with the common fields
    united with the service fields.  (TOPIC is tried after TABLE in the
    [switch], so the two tokens are taken to differ.) *)
Theorem getQbConfigs_service_categories_equal :
  TOPIC ≠ TABLE →
  getQbConfigs (VStr MLMODEL) = service_config ∧
  getQbConfigs (VStr PIPELINE) = service_config ∧
  getQbConfigs (VStr DASHBOARD) = service_config ∧
  getQbConfigs (VStr TOPIC) = service_config.
Proof.
  intros Hne.
  assert (strict_eq_str (VStr TOPIC) TABLE = false) as Hto.
  { apply strict_eq_str_false. congruence. }
  unfold getQbConfigs. rewrite Hto, !strict_eq_str_refl.
  repeat split; by repeat case_match.
Qed.

(** ** Dotted paths *)

Lemma getQbConfigs_table :
  TABLE ∉ [MLMODEL; PIPELINE; DASHBOARD] →
  getQbConfigs (VStr TABLE) = table_config.
Proof.
  rewrite !not_elem_of_cons. intros (Hm & Hp & Hd & _).
  unfold getQbConfigs.
  rewrite (proj2 (strict_eq_str_false _ MLMODEL)) by congruence.
  rewrite (proj2 (strict_eq_str_false _ PIPELINE)) by congruence.
  rewrite (proj2 (strict_eq_str_false _ DASHBOARD)) by congruence.
  by rewrite strict_eq_str_refl.
Qed.

Lemma getQbConfigs_dashboard : getQbConfigs (VStr DASHBOARD) = service_config.
Proof.
  unfold getQbConfigs. rewrite strict_eq_str_refl. by repeat case_match.
Qed.

Ltac resolve_paths :=
  repeat apply Forall_cons_2; try apply Forall_nil_2;
  try (eexists; split; reflexivity); try reflexivity.

(** C6: the fields mapping of [getQbConfigs(SearchIndex.TABLE)] holds
    descriptors for the dotted paths database.name, databaseSchema.name,
    name, columns.name, columns.dataType and columns.constraint, for all
    common paths and for service.name and service.deleted; a path such as
    owner.name is not a key of the mapping but is reached through the
    [subfields] of the struct field.  (The [switch] tries MLMODEL, PIPELINE
    and DASHBOARD before TABLE, so TABLE is taken to differ from them.) *)
Theorem getQbConfigs_table_paths :
  TABLE ∉ [MLMODEL; PIPELINE; DASHBOARD] →
  let fields := fields_of (getQbConfigs (VStr TABLE)) in
  Forall (has_descriptor fields) (table_paths ++ common_paths ++ service_paths) ∧
  own fields !! "owner.name" = None ∧
  field_at fields "owner.name"
    = Some (get_path fields ["owner"; "subfields"; "name"]).
Proof.
  intros Hne. rewrite (getQbConfigs_table Hne).
  unfold table_config. rewrite fields_of_config.
  cbv zeta. split; [| split].
  - unfold table_paths, common_paths, service_paths, app. resolve_paths.
  - reflexivity.
  - reflexivity.
Qed.

(** C7: the fields mapping of [getQbConfigs(SearchIndex.DASHBOARD)] holds
    descriptors for all common paths and for service.name and
    service.deleted, and none for the table-specific paths (database,
    databaseSchema, name, columns and their subfields). *)
Theorem getQbConfigs_dashboard_paths :
  let fields := fields_of (getQbConfigs (VStr DASHBOARD)) in
  Forall (has_descriptor fields) (common_paths ++ service_paths) ∧
  Forall (λ p, field_at fields p = None) table_only_paths ∧
  dom (own fields) ## dom (own tableQueryBuilderFields).
Proof.
  rewrite getQbConfigs_dashboard.
  unfold service_config. rewrite fields_of_config.
  cbv zeta. split; [| split].
  - unfold common_paths, service_paths, app. resolve_paths.
  - unfold table_only_paths. resolve_paths.
  - apply (bool_decide_unpack _). by vm_compute.
Qed.

(** ** The invariant of the descriptors *)

Lemma descriptor_of_cases fields d :
  descriptor_of fields d →
  ∃ k d0, (k, d0) ∈ map_to_list (own fields) ∧
    (d = d0 ∨ descriptor_of (get d0 "subfields") d).
Proof.
  intros [f k d0 Hk | f k d0 d' Hk Hsub];
    exists k, d0; rewrite elem_of_map_to_list; auto.
Qed.

Lemma descriptor_okb_sound d : descriptor_okb d = true → descriptor_ok d.
Proof.
  unfold descriptor_okb, descriptor_ok. intros Hok. split.
  - intros Hty. rewrite Hty in Hok. cbn in Hok.
    destruct (own d !! "subfields") as [[] |]; try done.
    eexists. split; [done |]. intros ->.
    by rewrite map_to_list_empty in Hok.
  - intros ty Hleaf Hty. rewrite Hty in Hok.
    destruct (String.eqb_spec ty "!struct") as [Heq | _].
    + rewrite Heq in Hleaf. unfold leaf_types in Hleaf.
      repeat (apply elem_of_cons in Hleaf as [Hleaf | Hleaf];
              [discriminate Hleaf |]).
      by apply elem_of_nil in Hleaf.
    + assert (existsb (String.eqb ty) leaf_types = true) as Hex.
      { apply existsb_exists. exists ty.
        split; [by apply list_elem_of_In | apply String.eqb_refl]. }
      rewrite Hex in Hok. by destruct (own d !! "subfields").
Qed.

Lemma check_descriptors_sound depth fields d :
  check_descriptors depth fields = true →
  descriptor_of fields d → descriptor_ok d.
Proof.
  revert fields. induction depth as [| depth IH]; intros fields Hcheck Hd;
    apply descriptor_of_cases in Hd as (k & d0 & Hin & Hd).
  - cbn in Hcheck. destruct (map_to_list (own fields)); [| done].
    by apply elem_of_nil in Hin.
  - cbn [check_descriptors] in Hcheck.
    rewrite forallb_forall in Hcheck.
    apply list_elem_of_In, Hcheck, andb_true_iff in Hin as [Hok Hsub].
    destruct Hd as [-> | Hd]; [by apply descriptor_okb_sound | by eapply IH].
Qed.

Lemma common_descriptors_ok d :
  descriptor_of commonQueryBuilderFields d → descriptor_ok d.
Proof. by apply (check_descriptors_sound 3). Qed.

Lemma service_descriptors_ok d :
  descriptor_of serviceQueryBuilderFields d → descriptor_ok d.
Proof. by apply (check_descriptors_sound 3). Qed.

Lemma table_descriptors_ok d :
  descriptor_of tableQueryBuilderFields d → descriptor_ok d.
Proof. by apply (check_descriptors_sound 3). Qed.

(** C8: in every field-descriptor mapping of the registry (common,
    service-backed, table-specific), and hence in the fields of every
    configuration returned by [getQbConfigs], a descriptor of type
    ['!struct'] carries a non-empty [subfields] mapping and a descriptor of
    a leaf type (boolean, text, select) carries no [subfields] mapping. *)
Theorem registry_descriptors_ok (fields d : Val) :
  fields ∈ [ commonQueryBuilderFields;
             serviceQueryBuilderFields;
             tableQueryBuilderFields ] ∨
  (∃ v, fields = fields_of (getQbConfigs v)) →
  descriptor_of fields d →
  descriptor_ok d.
Proof.
  intros [Hreg | [v ->]].
  - rewrite !elem_of_cons in Hreg.
    destruct Hreg as [-> | [-> | [-> | Hreg]]];
      [ apply common_descriptors_ok
      | apply service_descriptors_ok
      | apply table_descriptors_ok
      | by apply elem_of_nil in Hreg ].
  - destruct (getQbConfigs_cases v) as [-> | [-> | ->]].
    + unfold common_config. rewrite fields_of_config.
      apply common_descriptors_ok.
    + unfold service_config. rewrite fields_of_config.
      by apply (check_descriptors_sound 3).
    + unfold table_config. rewrite fields_of_config.
      by apply (check_descriptors_sound 3).
Qed.

(** ** The empty filter tree *)

Lemma own_literal_single k v : own (literal [k =: v]) = {[ k := v ]}.
Proof. unfold literal. cbn [foldl define own]. apply insert_empty. Qed.

(** C9, as the code has it: [emptyJsonTree] is a root group, carrying a
    generated [id], whose only child is a group whose only child is the
    empty rule (field and operator null, value and valueSrc empty lists);
    so the tree has two group nodes.  Each child is held in the
    [children1] of its parent under a generated identifier, and the three
    identifiers come from three successive calls of the generator, hence
    are pairwise distinct when the generator does not repeat itself. *)
Theorem emptyJsonTree_shape (n : nat) :
  (∀ i j, uuid i = uuid j → i = j) →
  let tree := emptyJsonTree n in
  ∃ inner,
    get tree "id" = VStr (uuid n) ∧
    group_with_only_child tree (uuid (S n)) inner ∧
    group_with_only_child inner (uuid (S (S n))) empty_rule ∧
    count_groups 3 tree = 2 ∧
    get_path empty_rule ["properties"; "field"] = VNull ∧
    get_path empty_rule ["properties"; "operator"] = VNull ∧
    get_path empty_rule ["properties"; "value"] = VArr [] ∧
    get_path empty_rule ["properties"; "valueSrc"] = VArr [] ∧
    NoDup [uuid n; uuid (S n); uuid (S (S n))].
Proof.
  intros Hinj. cbv zeta.
  unfold emptyJsonTree, emptyJsonTree_from, fresh. cbn [fst].
  fold empty_rule.
  eexists. split; [by read_literal |].
  split; [| split; [| split]].
  - split; [by read_literal |].
    read_literal. apply own_literal_single.
  - split; [by read_literal |].
    read_literal. apply own_literal_single.
  - cbn [count_groups]. repeat read_literal.
    rewrite !own_literal_single, !map_fold_singleton.
    repeat read_literal.
    rewrite !own_literal_single, !map_fold_singleton.
    reflexivity.
  - repeat split; try reflexivity.
    repeat constructor; rewrite ?not_elem_of_cons;
      repeat split; try apply not_elem_of_nil;
      intros Heq%Hinj; lia.
Qed.

(** ** The autocomplete adapter *)

Lemma uniq_from_spec seen l x :
  x ∈ uniq_from seen l ↔ x ∈ l ∧ x ∉ seen.
Proof.
  revert seen. induction l as [| y l IH]; intros seen; simpl.
  - rewrite !elem_of_nil. tauto.
  - case_bool_decide as Hy.
    + rewrite IH, elem_of_cons. split; [tauto |].
      intros [[-> | Hx] Hseen]; tauto.
    + rewrite !elem_of_cons, IH, not_elem_of_cons.
      destruct (decide (x = y)) as [-> | Hne]; tauto.
Qed.

Lemma uniq_from_NoDup seen l : NoDup (uniq_from seen l).
Proof.
  revert seen. induction l as [| y l IH]; intros seen; simpl.
  - constructor.
  - case_bool_decide; [apply IH |].
    constructor; [| apply IH].
    rewrite uniq_from_spec, not_elem_of_cons. tauto.
Qed.

(** What the adapter returns: one pair for each distinct object of the
    response, with the text of the object as value and as title. *)
Lemma autocomplete_values searchIndex suggestField search store resp :
  get (on_response (autocomplete searchIndex suggestField search) store resp)
      "values"
    = VArr (map (λ r, literal [ "value" =: get (store r) "text";
                                "title" =: get (store r) "text" ])
                (uniq resp)) ∧
  NoDup (uniq resp) ∧
  ∀ r, r ∈ uniq resp ↔ r ∈ resp.
Proof.
  split; [by cbn [on_response autocomplete]; read_literal |].
  split; [apply uniq_from_NoDup |].
  intros r. unfold uniq. rewrite uniq_from_spec, elem_of_nil. tauto.
Qed.

(** C3, at a response whose three objects hold the texts alpha, alpha and
    beta: the adapter returns three pairs, the pair of alpha twice. *)
Theorem autocomplete_duplicate_texts (searchIndex suggestField search : Val) :
  map (λ r, get (sample_store r) "text") sample_resp
    = [VStr "alpha"; VStr "alpha"; VStr "beta"] ∧
  get (on_response (autocomplete searchIndex suggestField search)
         sample_store sample_resp) "values"
    = VArr [ literal [ "value" =: VStr "alpha"; "title" =: VStr "alpha" ];
             literal [ "value" =: VStr "alpha"; "title" =: VStr "alpha" ];
             literal [ "value" =: VStr "beta"; "title" =: VStr "beta" ] ].
Proof. split; reflexivity. Qed.

(** C4, as the code has it: an undefined (or null) query text is replaced
    by the wildcard ["*"] in the request that is dispatched; a string,
    the empty string included, is dispatched as it is. *)
Theorem autocomplete_query (searchIndex suggestField : Val) :
  get (request (autocomplete searchIndex suggestField VUndefined)) "query"
    = VStr "*" ∧
  get (request (autocomplete searchIndex suggestField VNull)) "query"
    = VStr "*" ∧
  ∀ s, get (request (autocomplete searchIndex suggestField (VStr s))) "query"
    = VStr s.
Proof. repeat split. Qed.

(** ** More on the autocomplete adapter *)

Lemma uniq_from_length seen l :
  (List.length (uniq_from seen l) ≤ List.length l)%nat.
Proof.
  revert seen. induction l as [| x l IH]; intros seen; simpl; [lia |].
  case_bool_decide; simpl; [specialize (IH seen) | specialize (IH (x :: seen))];
    lia.
Qed.


Lemma uniq_from_NoDup_id seen l :
  NoDup l → (∀ x, x ∈ l → x ∉ seen) → uniq_from seen l = l.
Proof.
  intros Hnd. revert seen.
  induction Hnd as [| x l Hx Hnd IH]; intros seen Hseen; simpl; [done |].
  rewrite bool_decide_eq_false_2 by (apply Hseen; left).
  f_equal. apply IH. intros y Hy. rewrite not_elem_of_cons. split.
  - intros ->. done.
  - apply Hseen. by right.
Qed.

Lemma on_response_values searchIndex suggestField search store resp :
  get (on_response (autocomplete searchIndex suggestField search) store resp)
      "values"
    = VArr (map (λ r, suggestion (get (store r) "text")) (uniq resp)).
Proof. cbn [on_response autocomplete]. by read_literal. Qed.

(** X1: whatever the response, the adapter reports [hasMore = false] and
    returns at most as many pairs as the response has items. *)
Theorem autocomplete_never_more searchIndex suggestField search store resp :
  let result :=
    on_response (autocomplete searchIndex suggestField search) store resp in
  ∃ vals,
    get result "values" = VArr vals ∧
    (List.length vals ≤ List.length resp)%nat ∧
    get result "hasMore" = VBool false.
Proof.
  cbv zeta. eexists. split; [apply on_response_values |].
  split; [| by cbn [on_response autocomplete]; read_literal].
  rewrite length_map. apply uniq_from_length.
Qed.

(** X2: when the objects of the response are pairwise distinct (as the
    items of a parsed response are), the adapter returns one pair for each
    item, in the order of the response: nothing is dropped, whatever the
    texts. *)
Theorem autocomplete_distinct_objects
    searchIndex suggestField search store resp :
  NoDup resp →
  get (on_response (autocomplete searchIndex suggestField search) store resp)
      "values"
    = VArr (map (λ r, suggestion (get (store r) "text")) resp).
Proof.
  intros Hnd. rewrite on_response_values. unfold uniq.
  rewrite uniq_from_NoDup_id; [done | done |].
  intros x _. apply not_elem_of_nil.
Qed.


(** X4: whatever the query text, the request has exactly the properties
    query, searchIndex, field and fetchSource; the index and the
    suggestion field are those the adapter was made for, the source
    documents are never fetched, and the query is never undefined or
    null. *)
Theorem autocomplete_request_shape searchIndex suggestField search :
  let req := request (autocomplete searchIndex suggestField search) in
  dom (own req) = {[ "query"; "searchIndex"; "field"; "fetchSource" ]} ∧
  get req "searchIndex" = searchIndex ∧
  get req "field" = suggestField ∧
  get req "fetchSource" = VBool false ∧
  get req "query" ≠ VUndefined ∧
  get req "query" ≠ VNull.
Proof.
  cbv zeta. cbn [request autocomplete].
  split; [apply (bool_decide_unpack _); by vm_compute |].
  do 3 (split; [by read_literal |]).
  read_literal. by destruct search.
Qed.

(** ** What the configuration takes from the base configuration *)

Lemma lookup_foldl_define acc es k :
  all_keys es = true → k ∉ keys_set es →
  foldl define acc es !! k = acc !! k.
Proof.
  revert acc. induction es as [| [x | k' v'] es IH]; intros acc; [done | done |].
  cbn [all_keys keys_set foldl define]. rewrite not_elem_of_cons.
  intros Hall [Hne Hk]. rewrite IH by done. by rewrite lookup_insert_ne.
Qed.

Lemma get_literal_inherit x es k :
  all_keys es = true → k ∉ keys_set es →
  get (literal (Spread x :: es)) k = get x k.
Proof.
  intros Hall Hk. unfold literal, get. cbn [foldl define].
  rewrite lookup_foldl_define, (right_id_L ∅ (∪)) by done.
  destruct x; try done; by rewrite lookup_empty.
Qed.

Ltac inherit_literal :=
  rewrite get_literal_inherit by (first [reflexivity | assumption]).

(** X5: the configuration changes the base configuration only where the
    source names a property.  At the top level and at each place that is
    rebuilt with a spread (types and its multiselect, select and text
    entries with their widgets, widgets and its three entries, operators
    and its like entry, settings), every property that the literal does not
    set reads as in [BaseConfig], for every category. *)
Theorem getQbConfigs_overrides_only_named (v : Val) path names k :
  (path, names) ∈ overrides →
  k ∉ names →
  get_path (getQbConfigs v) (path ++ [k]) = get_path BaseConfig (path ++ [k]).
Proof.
  intros Hin Hk. unfold overrides in Hin.
  repeat (apply elem_of_cons in Hin as [[= -> ->] | Hin]);
    [.. | by apply elem_of_nil in Hin];
    unfold get_path; cbn [app foldl].
  1: { apply not_elem_of_cons in Hk as [Hk1 Hk].
       apply not_elem_of_cons in Hk as [Hk2 Hk].
       apply not_elem_of_cons in Hk as [Hk3 Hk].
       apply not_elem_of_cons in Hk as [Hk4 Hk].
       apply not_elem_of_cons in Hk as [Hk5 _].
       rewrite getQbConfigs_base by done.
       unfold initialConfigWithoutFields.
       apply get_literal_inherit; [done |].
       cbn [keys_set]. rewrite !not_elem_of_cons.
       repeat split; try done. apply not_elem_of_nil. }
  all: rewrite getQbConfigs_base by discriminate;
    unfold initialConfigWithoutFields;
    repeat read_literal; by inherit_literal.
Qed.

(** X6: any two configurations, for whatever categories, differ at most in
    their [fields]. *)
Theorem getQbConfigs_differ_in_fields_only (v w : Val) (k : string) :
  k ≠ "fields" →
  get (getQbConfigs v) k = get (getQbConfigs w) k.
Proof. intros Hk. by rewrite !getQbConfigs_base. Qed.

(** X7: whatever the base configuration holds, in every configuration
    the text widget of the types ['multiselect'] and ['select'] has exactly
    the operators ['like'] and ['not_like'], the operator ['like'] is
    searched as a wildcard query, and values of type ['text'] are literal
    values only. *)
Theorem getQbConfigs_like_wildcard (v : Val) (ty : string) :
  ty ∈ ["multiselect"; "select"] →
  get_path (getQbConfigs v) ["types"; ty; "widgets"; "text"; "operators"]
    = VArr [VStr "like"; VStr "not_like"] ∧
  get_path (getQbConfigs v) ["operators"; "like"; "elasticSearchQueryType"]
    = VStr "wildcard" ∧
  get_path (getQbConfigs v) ["types"; "text"; "valueSources"]
    = VArr [VStr "value"].
Proof.
  intros Hty. unfold get_path. cbn [foldl].
  rewrite !getQbConfigs_base by discriminate.
  unfold initialConfigWithoutFields.
  rewrite !elem_of_cons in Hty.
  destruct Hty as [-> | [-> | Hty]]; [| | by apply elem_of_nil in Hty];
    repeat split; by repeat read_literal.
Qed.

(** X8: whatever the base configuration holds, in every configuration the
    widgets ['multiselect'] and ['select'] search asynchronously, with
    search box and checkboxes, and never load more: in accordance with the
    adapter, whose results always report [hasMore = false]. *)
Theorem getQbConfigs_async_widgets (v : Val) (w : string) :
  w ∈ ["multiselect"; "select"] →
  get_path (getQbConfigs v) ["widgets"; w; "showSearch"] = VBool true ∧
  get_path (getQbConfigs v) ["widgets"; w; "showCheckboxes"] = VBool true ∧
  get_path (getQbConfigs v) ["widgets"; w; "useAsyncSearch"] = VBool true ∧
  get_path (getQbConfigs v) ["widgets"; w; "useLoadMore"] = VBool false ∧
  ∀ searchIndex suggestField search store resp,
    get (on_response (autocomplete searchIndex suggestField search) store resp)
        "hasMore"
      = get_path (getQbConfigs v) ["widgets"; w; "useLoadMore"].
Proof.
  intros Hw. unfold get_path. cbn [foldl].
  rewrite !getQbConfigs_base by discriminate.
  unfold initialConfigWithoutFields.
  rewrite !elem_of_cons in Hw.
  destruct Hw as [-> | [-> | Hw]]; [| | by apply elem_of_nil in Hw];
    repeat split; try (by repeat read_literal);
    intros; cbn [on_response autocomplete]; by repeat read_literal.
Qed.

(** ** The fields of a configuration and the registry *)

Lemma fields_subseteq_table v :
  own (fields_of (getQbConfigs v)) ⊆ own (fields_of table_config).
Proof.
  rewrite fields_of_table_config.
  destruct (getQbConfigs_cases v) as [-> | [-> | ->]].
  - unfold common_config. rewrite fields_of_config.
    apply map_union_subseteq_r', map_union_subseteq_r;
      [apply table_disjoint | apply common_service_disjoint].
  - rewrite fields_of_service_config.
    apply map_union_subseteq_r, table_disjoint.
  - by rewrite fields_of_table_config.
Qed.

Lemma service_subseteq_service_config :
  own serviceQueryBuilderFields ⊆ own (fields_of service_config).
Proof. rewrite fields_of_service_config. apply map_union_subseteq_l. Qed.

Lemma getQbConfigs_supported v :
  v ∈ supported →
  getQbConfigs v = service_config ∨ getQbConfigs v = table_config.
Proof.
  unfold supported. rewrite !elem_of_cons, elem_of_nil.
  intros Hv. unfold getQbConfigs.
  destruct (strict_eq_str v MLMODEL) eqn:Hm; [by left |].
  destruct (strict_eq_str v PIPELINE) eqn:Hp; [by left |].
  destruct (strict_eq_str v DASHBOARD) eqn:Hd; [by left |].
  destruct (strict_eq_str v TABLE) eqn:Hta; [by right |].
  destruct (strict_eq_str v TOPIC) eqn:Hto; [by left |].
  apply strict_eq_str_false in Hm, Hp, Hd, Hta, Hto.
  destruct Hv as [-> | [-> | [-> | [-> | [-> | []]]]]]; congruence.
Qed.

Lemma getQbConfigs_not_table v :
  v ≠ VStr TABLE →
  getQbConfigs v = common_config ∨ getQbConfigs v = service_config.
Proof.
  intros Hv%strict_eq_str_false. unfold getQbConfigs. rewrite Hv.
  repeat case_match; auto.
Qed.

(** X9: the fields of a configuration hold nothing but registry
    descriptors: every top-level entry of the fields of every
    configuration is an entry, with the same key and descriptor, of the
    common, the service or the table mapping. *)
Theorem getQbConfigs_fields_from_registry (v : Val) k d :
  own (fields_of (getQbConfigs v)) !! k = Some d →
  holds commonQueryBuilderFields k d ∨
  holds serviceQueryBuilderFields k d ∨
  holds tableQueryBuilderFields k d.
Proof.
  intros Hk. unfold holds.
  pose proof (lookup_weaken _ _ _ _ Hk (fields_subseteq_table v)) as Hk'.
  rewrite fields_of_table_config in Hk'.
  apply lookup_union_Some_raw in Hk' as [? | [_ Hk']]; [auto |].
  apply lookup_union_Some_raw in Hk' as [? | [_ ?]]; auto.
Qed.

(** X10: every supported category has the service field: the service
    mapping is part of the fields of its configuration, descriptor for
    descriptor. *)
Theorem getQbConfigs_service_fields (v : Val) :
  v ∈ supported →
  own serviceQueryBuilderFields ⊆ own (fields_of (getQbConfigs v)).
Proof.
  intros [-> | ->]%getQbConfigs_supported.
  - apply service_subseteq_service_config.
  - rewrite fields_of_table_config.
    apply map_union_subseteq_r', map_union_subseteq_l. apply table_disjoint.
Qed.

(** X11: only the table category has the table-specific fields: for every
    input other than the TABLE token, no key of the table mapping is a key
    of the fields of the configuration and none of the table-specific
    paths resolves. *)
Theorem getQbConfigs_table_fields_only_for_table (v : Val) :
  v ≠ VStr TABLE →
  let fields := fields_of (getQbConfigs v) in
  dom (own fields) ## dom (own tableQueryBuilderFields) ∧
  Forall (λ p, field_at fields p = None) table_only_paths.
Proof.
  intros [-> | ->]%getQbConfigs_not_table; cbv zeta.
  - unfold common_config. rewrite fields_of_config. split.
    + apply (bool_decide_unpack _). by vm_compute.
    + unfold table_only_paths. resolve_paths.
  - unfold service_config. rewrite fields_of_config. split.
    + apply (bool_decide_unpack _). by vm_compute.
    + unfold table_only_paths. resolve_paths.
Qed.

(** X12: the table configuration has the richest fields: it holds every
    entry of the three registry mappings unchanged (no spread overwrites
    an entry of an earlier one), and so every field of the configuration
    of any other category, with the same descriptor. *)
Theorem getQbConfigs_table_fields_richest :
  TABLE ∉ [MLMODEL; PIPELINE; DASHBOARD] →
  let table_fields := own (fields_of (getQbConfigs (VStr TABLE))) in
  own commonQueryBuilderFields ⊆ table_fields ∧
  own serviceQueryBuilderFields ⊆ table_fields ∧
  own tableQueryBuilderFields ⊆ table_fields ∧
  ∀ v, own (fields_of (getQbConfigs v)) ⊆ table_fields.
Proof.
  intros Hne. rewrite (getQbConfigs_table Hne). cbv zeta.
  split; [| split; [| split]]; [| | | apply fields_subseteq_table];
    rewrite fields_of_table_config.
  - apply map_union_subseteq_r', map_union_subseteq_r;
      [apply table_disjoint | apply common_service_disjoint].
  - apply map_union_subseteq_r', map_union_subseteq_l. apply table_disjoint.
  - apply map_union_subseteq_l.
Qed.

(** ** More invariants of the descriptors *)

Lemma descriptor_of_mono fields fields' d :
  own fields ⊆ own fields' → descriptor_of fields d → descriptor_of fields' d.
Proof.
  intros Hsub Hd. revert Hsub.
  destruct Hd as [f k d0 Hk | f k d0 d' Hk Hd]; intros Hsub.
  - eapply descriptor_top, lookup_weaken; done.
  - eapply descriptor_sub; [eapply lookup_weaken |]; done.
Qed.

Lemma descriptors_complete depth fields d :
  no_deeper depth fields = true →
  descriptor_of fields d → d ∈ descriptors depth fields.
Proof.
  revert fields. induction depth as [| depth IH]; intros fields Hdeep Hd;
    apply descriptor_of_cases in Hd as (k & d0 & Hin & Hd).
  - cbn in Hdeep. destruct (map_to_list (own fields)); [| done].
    by apply elem_of_nil in Hin.
  - cbn [no_deeper descriptors] in *.
    rewrite forallb_forall in Hdeep.
    apply list_elem_of_In, in_flat_map. exists (k, d0).
    apply list_elem_of_In in Hin. split; [done |].
    apply list_elem_of_In. cbn [snd].
    destruct Hd as [-> | Hd]; [left |].
    right. apply IH; [| done]. by apply (Hdeep (k, d0)).
Qed.

Lemma all_descriptors {A} (f : Val → A) (Q : A → Prop) :
  Forall Q (map f (descriptors 3 (fields_of table_config))) →
  ∀ v d, descriptor_of (fields_of (getQbConfigs v)) d → Q (f d).
Proof.
  intros HQ v d Hd. rewrite Forall_forall in HQ. apply HQ.
  apply list_elem_of_fmap_2.
  eapply descriptor_of_mono in Hd; [| apply fields_subseteq_table].
  revert Hd. unfold table_config. rewrite fields_of_config.
  by apply descriptors_complete.
Qed.

Ltac each_descriptor f Q tac :=
  intros v d Hd;
  refine (all_descriptors f Q _ v d Hd);
  unfold table_config; rewrite fields_of_config;
  vm_compute (map _ _);
  repeat (apply Forall_cons_2; [tac |]); apply Forall_nil_2.

(** X13: every descriptor, at any depth, of the fields of every
    configuration has a label that is a string and a type that is one of
    ['boolean'], ['text'], ['select'] and ['!struct']. *)
Theorem descriptors_labelled_and_typed (v d : Val) :
  descriptor_of (fields_of (getQbConfigs v)) d →
  ∃ label ty,
    get d "label" = VStr label ∧
    get d "type" = VStr ty ∧
    ty ∈ "!struct" :: leaf_types.
Proof.
  revert v d.
  each_descriptor
    (λ d, (get d "label", get d "type"))
    (λ x : Val * Val, ∃ label ty,
       x.1 = VStr label ∧ x.2 = VStr ty ∧ ty ∈ "!struct" :: leaf_types)
    ltac:(do 2 eexists; split; [reflexivity |]; split; [reflexivity |];
          unfold leaf_types; rewrite !elem_of_cons; tauto).
Qed.

Lemma is_undefined_true v : is_undefined v = true → v = VUndefined.
Proof. by destruct v. Qed.

Lemma nonempty_array_true v :
  nonempty_array v = true → ∃ x l, v = VArr (x :: l).
Proof. destruct v as [| | | | | [| x l] | | |]; try done. eauto. Qed.

(** X14: in the fields of every configuration, every descriptor of type
    ['select'] has a source of values in its [fieldSettings]: either an
    [asyncFetch] made by [autocomplete] (and then no list of values) or a
    non-empty list of values (and then no [asyncFetch]); a descriptor of
    any other type has no [fieldSettings]. *)
Theorem select_descriptors_have_values (v d : Val) :
  descriptor_of (fields_of (getQbConfigs v)) d →
  (get d "type" = VStr "select" →
     (∃ searchIndex suggestField,
        get_path d ["fieldSettings"; "asyncFetch"]
          = VAutocomplete searchIndex suggestField ∧
        get_path d ["fieldSettings"; "listValues"] = VUndefined) ∨
     (get_path d ["fieldSettings"; "asyncFetch"] = VUndefined ∧
      ∃ x l, get_path d ["fieldSettings"; "listValues"] = VArr (x :: l))) ∧
  (get d "type" ≠ VStr "select" → get d "fieldSettings" = VUndefined).
Proof.
  intros Hd.
  assert (HQ :
    (λ x : Val * bool * Val * bool * bool,
       (x.1.1.1.1 = VStr "select" →
          (∃ searchIndex suggestField,
             x.1.1.2 = VAutocomplete searchIndex suggestField ∧
             x.2 = true) ∨
          (x.1.1.2 = VUndefined ∧ x.1.2 = true)) ∧
       (x.1.1.1.1 ≠ VStr "select" → x.1.1.1.2 = true))
    (get d "type", is_undefined (get d "fieldSettings"),
     get_path d ["fieldSettings"; "asyncFetch"],
     nonempty_array (get_path d ["fieldSettings"; "listValues"]),
     is_undefined (get_path d ["fieldSettings"; "listValues"]))).
  { revert v d Hd.
    each_descriptor
      (λ d, (get d "type", is_undefined (get d "fieldSettings"),
             get_path d ["fieldSettings"; "asyncFetch"],
             nonempty_array (get_path d ["fieldSettings"; "listValues"]),
             is_undefined (get_path d ["fieldSettings"; "listValues"])))
      (λ x : Val * bool * Val * bool * bool,
         (x.1.1.1.1 = VStr "select" →
            (∃ searchIndex suggestField,
               x.1.1.2 = VAutocomplete searchIndex suggestField ∧
               x.2 = true) ∨
            (x.1.1.2 = VUndefined ∧ x.1.2 = true)) ∧
         (x.1.1.1.1 ≠ VStr "select" → x.1.1.1.2 = true))
      ltac:(cbn [fst snd]; split; intros Hty;
            [ first
                [ discriminate Hty
                | left; do 2 eexists; split; reflexivity
                | right; split; reflexivity ]
            | first [ reflexivity | exfalso; by apply Hty ] ]). }
  cbn [fst snd] in HQ. destruct HQ as [Hsel Hother]. split.
  - intros Hty. destruct (Hsel Hty) as [(si & sf & Ha & Hl) | [Ha Hl]].
    + left. exists si, sf. split; [done | by apply is_undefined_true].
    + right. split; [done | by apply nonempty_array_true].
  - intros Hty. by apply is_undefined_true, Hother.
Qed.

(** X15: in the fields of every configuration, every descriptor of type
    ['text'] or ['select'] carries the widget properties of
    [mainWidgetProps] (full width, the criteria label) and no default
    value; every descriptor of type ['boolean'] carries the default value
    [true] and no widget properties; a ['!struct'] carries neither. *)
Theorem descriptors_widget_props_and_defaults (v d : Val) :
  descriptor_of (fields_of (getQbConfigs v)) d →
  (get d "type" = VStr "text" ∨ get d "type" = VStr "select" →
     get_path d ["mainWidgetProps"; "fullWidth"]
       = get mainWidgetProps "fullWidth" ∧
     get_path d ["mainWidgetProps"; "valueLabel"]
       = get mainWidgetProps "valueLabel" ∧
     get d "defaultValue" = VUndefined) ∧
  (get d "type" = VStr "boolean" →
     get d "mainWidgetProps" = VUndefined ∧
     get d "defaultValue" = VBool true) ∧
  (get d "type" = VStr "!struct" →
     get d "mainWidgetProps" = VUndefined ∧
     get d "defaultValue" = VUndefined).
Proof.
  intros Hd.
  assert (HQ :
    (λ x : Val * Val * Val * bool * Val,
       (x.1.1.1.1 = VStr "text" ∨ x.1.1.1.1 = VStr "select" →
          x.1.1.1.2 = get mainWidgetProps "fullWidth" ∧
          x.1.1.2 = get mainWidgetProps "valueLabel" ∧
          x.2 = VUndefined) ∧
       (x.1.1.1.1 = VStr "boolean" → x.1.2 = true ∧ x.2 = VBool true) ∧
       (x.1.1.1.1 = VStr "!struct" → x.1.2 = true ∧ x.2 = VUndefined))
    (get d "type",
     get_path d ["mainWidgetProps"; "fullWidth"],
     get_path d ["mainWidgetProps"; "valueLabel"],
     is_undefined (get d "mainWidgetProps"),
     get d "defaultValue")).
  { revert v d Hd.
    each_descriptor
      (λ d, (get d "type",
             get_path d ["mainWidgetProps"; "fullWidth"],
             get_path d ["mainWidgetProps"; "valueLabel"],
             is_undefined (get d "mainWidgetProps"),
             get d "defaultValue"))
      (λ x : Val * Val * Val * bool * Val,
         (x.1.1.1.1 = VStr "text" ∨ x.1.1.1.1 = VStr "select" →
            x.1.1.1.2 = get mainWidgetProps "fullWidth" ∧
            x.1.1.2 = get mainWidgetProps "valueLabel" ∧
            x.2 = VUndefined) ∧
         (x.1.1.1.1 = VStr "boolean" → x.1.2 = true ∧ x.2 = VBool true) ∧
         (x.1.1.1.1 = VStr "!struct" → x.1.2 = true ∧ x.2 = VUndefined))
      ltac:(cbn [fst snd]; split; [| split];
            [ intros [Hty | Hty] | intros Hty | intros Hty ];
            first [ discriminate Hty | repeat split; reflexivity ]). }
  cbn [fst snd] in HQ. destruct HQ as (Hleaf & Hbool & Hstruct).
  split; [done |].
  split; intros Hty; [destruct (Hbool Hty) | destruct (Hstruct Hty)];
    split; try done; by apply is_undefined_true.
Qed.

(** X16: for every supported category the suggestions of the service
    name are asked of the TABLE index, with the SERVICE suggestion field,
    whatever the category of the configuration and the query text. *)
Theorem getQbConfigs_service_suggestions (v search : Val) :
  v ∈ supported →
  ∃ d call,
    field_at (fields_of (getQbConfigs v)) "service.name" = Some d ∧
    call_asyncFetch (get_path d ["fieldSettings"; "asyncFetch"]) search
      = Some call ∧
    get (request call) "searchIndex" = VStr TABLE ∧
    get (request call) "field" = VStr SERVICE.
Proof.
  intros [-> | ->]%getQbConfigs_supported;
    [unfold service_config | unfold table_config];
    rewrite fields_of_config;
    (do 2 eexists; split; [reflexivity |]; split; [reflexivity |]);
    cbn [request autocomplete]; split; by read_literal.
Qed.

(** ** The dropdown items *)


Ltac item_resolved := do 2 eexists; split; reflexivity.
Ltac item_unresolved :=
  let Hat := fresh "Hat" in
  intros (? & ? & [= <-] & Hat); vm_compute in Hat; discriminate Hat.

(** X18: in the table configuration the keys of all common and table
    dropdown items resolve to a descriptor, whereas the keys of the
    dashboard and pipeline items (charts.displayName, tasks.displayName)
    resolve in the configuration of no category. *)
Theorem dropdown_items_resolution :
  TABLE ∉ [MLMODEL; PIPELINE; DASHBOARD] →
  Forall (item_resolves (fields_of (getQbConfigs (VStr TABLE))))
    (COMMON_DROPDOWN_ITEMS ++ TABLE_DROPDOWN_ITEMS) ∧
  ∀ v,
    Forall (λ item, ¬ item_resolves (fields_of (getQbConfigs v)) item)
      (DASHBOARD_DROPDOWN_ITEMS ++ PIPELINE_DROPDOWN_ITEMS).
Proof.
  intros Hne. rewrite (getQbConfigs_table Hne). split.
  - unfold table_config. rewrite fields_of_config.
    repeat (apply Forall_cons_2; [item_resolved |]). apply Forall_nil_2.
  - intros v.
    destruct (getQbConfigs_cases v) as [-> | [-> | ->]];
      [unfold common_config | unfold service_config | unfold table_config];
      rewrite fields_of_config;
      repeat (apply Forall_cons_2; [item_unresolved |]); apply Forall_nil_2.
Qed.

(** X19: for an unrecognized category the dropdown items whose key
    resolves in the fields of the configuration are exactly those whose
    key is a member of [MISC_FIELDS]. *)
Theorem dropdown_items_unrecognized (v item : Val) :
  v ∉ supported →
  item ∈ ALL_DROPDOWN_ITEMS →
  item_resolves (fields_of (getQbConfigs v)) item ↔
  ∃ k, k ∈ MISC_FIELDS ∧ item_key item = VStr k.
Proof.
  unfold supported. rewrite !not_elem_of_cons.
  intros (Hm & Hp & Hd & Hta & Hto & _) Hitem.
  unfold getQbConfigs.
  apply strict_eq_str_false in Hm, Hp, Hd, Hta, Hto.
  rewrite Hm, Hp, Hd, Hta, Hto, fields_of_config.
  unfold ALL_DROPDOWN_ITEMS, COMMON_DROPDOWN_ITEMS, TABLE_DROPDOWN_ITEMS,
    DASHBOARD_DROPDOWN_ITEMS, PIPELINE_DROPDOWN_ITEMS in Hitem.
  cbn [app] in Hitem. unfold MISC_FIELDS.
  repeat (apply elem_of_cons in Hitem as [-> | Hitem]);
    [.. | by apply elem_of_nil in Hitem].
  1, 2: split; [intros _ | intros _; item_resolved];
    eexists; (split; [| reflexivity]);
    rewrite !elem_of_cons; auto.
  all: split; [item_unresolved |];
    intros (? & Hk & [= <-]);
    rewrite !elem_of_cons, elem_of_nil in Hk;
    destruct Hk as [Hk | [Hk | []]]; discriminate Hk.
Qed.

End AdvancedSearch.

(** ** The tabs of the database schema details *)

(** X20: whatever the tab path, the result is the position (counted from
    1) of a tab of [databaseSchemaDetailsTabs]; it is 2 for the path
    ['activity_feed'] only, and 1, the tables tab, for every other
    input. *)
Theorem getCurrentDatabaseSchemaDetailsTab_position (ACTIVITY_FEED tab : Val) :
  let position := getCurrentDatabaseSchemaDetailsTab tab in
  is_Some
    (databaseSchemaDetailsTabs ACTIVITY_FEED !! Z.to_nat (position - 1)) ∧
  (position = 2%Z ↔ tab = VStr "activity_feed") ∧
  (position = 1%Z ↔ tab ≠ VStr "activity_feed").
Proof.
  cbv zeta. unfold getCurrentDatabaseSchemaDetailsTab.
  destruct (strict_eq_str tab "activity_feed") eqn:Htab.
  - apply strict_eq_str_true in Htab as ->. split; [by eexists |].
    split; split; intros; done.
  - apply strict_eq_str_false in Htab.
    assert ((if strict_eq_str tab "tables" then 1%Z else 1%Z) = 1%Z) as ->
      by by destruct (strict_eq_str tab "tables").
    split; [by eexists |]. split; split; intros; done.
Qed.

(** X21: the path of the tab at position [i] (counted from 0) of
    [databaseSchemaDetailsTabs] is mapped back to [i + 1]. *)
Theorem getCurrentDatabaseSchemaDetailsTab_round_trip
    (ACTIVITY_FEED : Val) (i : nat) (tab : Val) :
  databaseSchemaDetailsTabs ACTIVITY_FEED !! i = Some tab →
  getCurrentDatabaseSchemaDetailsTab (get tab "path") = (Z.of_nat i + 1)%Z.
Proof.
  destruct i as [| [| i]]; intros [= <-]; reflexivity.
Qed.

(** ** The query string of the tables of a schema *)

Lemma append_until_char c a a' r r' :
  has_char c a = false → has_char c a' = false →
  a +:+ String c r = a' +:+ String c r' → a = a' ∧ r = r'.
Proof.
  revert a'. induction a as [| x a IH]; intros [| x' a']; simpl.
  - intros _ _ [= ->]. done.
  - intros _ [Hx _]%orb_false_elim [= <- _].
    by rewrite Ascii.eqb_refl in Hx.
  - intros [Hx _]%orb_false_elim _ [= -> _].
    by rewrite Ascii.eqb_refl in Hx.
  - intros [_ Ha]%orb_false_elim [_ Ha']%orb_false_elim [= -> Heq].
    destruct (IH a' Ha Ha' Heq) as [-> ->]. done.
Qed.

Lemma append_length a b :
  String.length (a +:+ b) = (String.length a + String.length b)%nat.
Proof. induction a as [| x a IH]; simpl; [done | by rewrite IH]. Qed.

Lemma append_cancel_r a a' b : a +:+ b = a' +:+ b → a = a'.
Proof.
  revert a'. induction a as [| x a IH]; intros [| x' a']; simpl; [done | | |].
  - intros Heq. apply (f_equal String.length) in Heq.
    simpl in Heq. rewrite !append_length in Heq. simpl in Heq. lia.
  - intros Heq. apply (f_equal String.length) in Heq.
    simpl in Heq. rewrite !append_length in Heq. simpl in Heq. lia.
  - intros [= -> Heq]. f_equal. by apply IH.
Qed.

(** X22: the query string determines the three names as long as the
    service and database names hold no closing parenthesis: two calls on
    such names that give the same query have the same service, database
    and schema names. *)
Theorem getQueryStringForSchemaTables_injective
    (service database schema service' database' schema' : Val)
    (s d s' d' q : string) :
  read service "name" = Some (VStr s) →
  read database "name" = Some (VStr d) →
  read service' "name" = Some (VStr s') →
  read database' "name" = Some (VStr d') →
  has_char ")" s = false → has_char ")" d = false →
  has_char ")" s' = false → has_char ")" d' = false →
  getQueryStringForSchemaTables service database schema = Some q →
  getQueryStringForSchemaTables service' database' schema' = Some q →
  s = s' ∧ d = d' ∧
  read schema "name" ≫= template_text = read schema' "name" ≫= template_text.
Proof.
  intros Hs Hd Hs' Hd' Ns Nd Ns' Nd'.
  unfold getQueryStringForSchemaTables.
  rewrite Hs, Hd, Hs', Hd'. cbn [mbind option_bind template_text].
  destruct (read schema "name" ≫= template_text) as [c |]; [| done].
  destruct (read schema' "name" ≫= template_text) as [c' |]; [| done].
  cbn [mbind option_bind]. intros [= <-] [= Heq].
  apply (append_until_char ")"%char) in Heq as [-> Heq]; [| done..].
  simplify_eq/=.
  apply (append_until_char ")"%char) in Heq as [-> Heq]; [| done..].
  simplify_eq/=.
  match goal with
  | Hc : _ +:+ ")" = _ +:+ ")" |- _ => apply append_cancel_r in Hc as ->
  end.
  done.
Qed.

(** ** The form that adds a glossary term *)






Section GlossaryTermForm.

Import AddGlossaryTerm.

Variable trim : string → string.
Variable parentGlossaryData glossaryData editorContent : Val.

Local Abbreviation handleSave :=
  (AddGlossaryTerm.handleSave trim parentGlossaryData glossaryData
     editorContent).


(** X23: saving is refused exactly when the trimmed name is empty: then
    [onSave] is not called and the only change of the state is that the
    error of the name is shown. *)
Theorem handleSave_refuses_blank_name st :
  trim (name st) = "" →
  handleSave st
    = ({| showErrorMsg := literal [ "name" =: VBool true ];
          name := name st;
          showRevieweModal := showRevieweModal st;
          showRelatedTermsModal := showRelatedTermsModal st;
          reviewer := reviewer st;
          synonyms := synonyms st;
          referances := referances st |}, None).
Proof.
  intros Hname. unfold AddGlossaryTerm.handleSave, validateForm.
  by rewrite (bool_decide_eq_true_2 _ Hname).
Qed.




End GlossaryTermForm.

(** X27: removing the reference row [i] leaves the rows before it in
    place and moves each later row one place up; for an [i] past the last
    row nothing changes (the number of rows drops by one exactly when [i]
    is the place of a row).  Nothing but the rows is touched. *)
Theorem removeReferenceFields_rows (i j : nat) (st : AddGlossaryTerm.State) :
  let st' := AddGlossaryTerm.removeReferenceFields i st in
  AddGlossaryTerm.referances st' !! j
    = (if decide (j < i) then AddGlossaryTerm.referances st !! j
       else AddGlossaryTerm.referances st !! S j) ∧
  List.length (AddGlossaryTerm.referances st')
    = (List.length (AddGlossaryTerm.referances st) -
       (if decide (i < List.length (AddGlossaryTerm.referances st))%nat
        then 1 else 0))%nat ∧
  AddGlossaryTerm.reviewer st' = AddGlossaryTerm.reviewer st ∧
  AddGlossaryTerm.name st' = AddGlossaryTerm.name st ∧
  AddGlossaryTerm.synonyms st' = AddGlossaryTerm.synonyms st.
Proof.
  cbv zeta. destruct st as [e n rm rtm rv sy refs].
  unfold AddGlossaryTerm.removeReferenceFields.
  cbn [AddGlossaryTerm.referances AddGlossaryTerm.reviewer
       AddGlossaryTerm.name AddGlossaryTerm.synonyms
       AddGlossaryTerm.showErrorMsg AddGlossaryTerm.showRevieweModal
       AddGlossaryTerm.showRelatedTermsModal].
  split; [| split; [| done]].
  - rewrite lookup_app, lookup_take, lookup_drop, length_take.
    case_decide as Hj.
    + destruct (refs !! j) eqn:Hrefs; [done |].
      apply lookup_ge_None in Hrefs. apply lookup_ge_None_2. lia.
    + destruct (decide (i ≤ List.length refs)%nat) as [Hi | Hi].
      * f_equal. lia.
      * rewrite !lookup_ge_None_2; [done | lia | lia].
  - rewrite length_app, length_take, length_drop. case_decide; lia.
Qed.

(** X28: adding an empty reference row and then removing the last row
    gives the state back. *)
Theorem addReferenceFields_then_remove (st : AddGlossaryTerm.State) :
  AddGlossaryTerm.removeReferenceFields
    (List.length (AddGlossaryTerm.referances st))
    (AddGlossaryTerm.addReferenceFields st) = st.
Proof.
  destruct st as [e n rm rtm rv sy refs].
  unfold AddGlossaryTerm.removeReferenceFields,
    AddGlossaryTerm.addReferenceFields.
  cbn [AddGlossaryTerm.referances AddGlossaryTerm.reviewer
       AddGlossaryTerm.name AddGlossaryTerm.synonyms
       AddGlossaryTerm.showErrorMsg AddGlossaryTerm.showRevieweModal
       AddGlossaryTerm.showRelatedTermsModal].
  f_equal.
  rewrite take_app_length, drop_ge, app_nil_r; [done |].
  rewrite length_app. cbn [List.length]. lia.
Qed.

(** X29: removing a reviewer tag removes every reviewer of that name and
    no other: the reviewers that stay are those whose name is not the
    tag, in their order; nothing else of the state changes. *)
Theorem handleOptionRemove_reviewers (tag : string) (st : AddGlossaryTerm.State) :
  let st' := AddGlossaryTerm.handleOptionRemove tag st in
  (∀ r, r ∈ AddGlossaryTerm.reviewer st' ↔
        r ∈ AddGlossaryTerm.reviewer st ∧ get r "name" ≠ VStr tag) ∧
  AddGlossaryTerm.reviewer st' `sublist_of` AddGlossaryTerm.reviewer st ∧
  AddGlossaryTerm.handleOptionRemove tag st' = st' ∧
  AddGlossaryTerm.referances st' = AddGlossaryTerm.referances st ∧
  AddGlossaryTerm.name st' = AddGlossaryTerm.name st.
Proof.
  cbv zeta. destruct st as [e n rm rtm rv sy refs].
  unfold AddGlossaryTerm.handleOptionRemove. simpl.
  split; [| split; [| split; [| done]]].
  - intros r. rewrite !list_elem_of_In, filter_In, negb_true_iff.
    by rewrite strict_eq_str_false.
  - induction rv as [| r rv IH]; simpl; [constructor |].
    destruct (negb _); by constructor.
  - f_equal. induction rv as [| r rv IH]; simpl; [done |].
    destruct (negb _) eqn:Hr; simpl; [rewrite Hr; f_equal |]; done.
Qed.

(** X30: without access a change of an input changes nothing.  With
    access, typing in the name sets the name and clears its error, whereas
    typing in the synonyms sets the synonyms and leaves the name and its
    error as they are. *)
Theorem handleValidation_inputs (value ele : string) (st : AddGlossaryTerm.State) :
  AddGlossaryTerm.handleValidation false value ele st = st ∧
  (let st' := AddGlossaryTerm.handleValidation true value "name" st in
   AddGlossaryTerm.name st' = value ∧
   get (AddGlossaryTerm.showErrorMsg st') "name" = VBool false ∧
   AddGlossaryTerm.synonyms st' = AddGlossaryTerm.synonyms st) ∧
  (let st' := AddGlossaryTerm.handleValidation true value "synonyms" st in
   AddGlossaryTerm.synonyms st' = value ∧
   AddGlossaryTerm.name st' = AddGlossaryTerm.name st ∧
   get (AddGlossaryTerm.showErrorMsg st') "name"
     = get (AddGlossaryTerm.showErrorMsg st) "name").
Proof.
  cbv zeta. unfold AddGlossaryTerm.handleValidation. simpl.
  split; [done |]. split.
  - repeat split. apply (get_literal_last [Spread _]).
  - repeat split. apply (get_literal_last [Spread _]).
Qed.

(** ** The statements at the sample instances *)

Local Abbreviation sample_getQbConfigs :=
  (@getQbConfigs sample_SearchIndex sample_SuggestionField
     sample_t sample_BaseConfig).
Local Abbreviation sample_supported := (@supported sample_SearchIndex).
Local Abbreviation sample_common :=
  (@commonQueryBuilderFields sample_SearchIndex sample_t).
Local Abbreviation sample_service :=
  (@serviceQueryBuilderFields sample_SearchIndex sample_SuggestionField
     sample_t).

(** C1 at the token of the user index, which has no case. *)
Lemma getQbConfigs_unrecognized_witness :
  (VStr "user_search_index" ∉ sample_supported) ∧
  sample_getQbConfigs (VStr "user_search_index")
    = @common_config sample_SearchIndex sample_t sample_BaseConfig ∧
  fields_of (sample_getQbConfigs (VStr "user_search_index")) = sample_common.
Proof.
  assert (VStr "user_search_index" ∉ sample_supported) as Hv.
  { unfold supported. rewrite !not_elem_of_cons.
    repeat split; try discriminate. apply not_elem_of_nil. }
  exact (conj Hv
    (@getQbConfigs_unrecognized sample_SearchIndex sample_SuggestionField
       sample_t sample_BaseConfig _ Hv)).
Defined.

(** C2 at the table category. *)
Lemma getQbConfigs_fields_superset_common_witness :
  VStr "table_search_index" ∈ sample_supported ∧
  dom (own sample_common)
    = {[ "deleted"; "owner"; "tags.tagFQN"; "tier.tagFQN" ]} ∧
  ∀ k d,
    own sample_common !! k = Some d →
    own (fields_of (sample_getQbConfigs (VStr "table_search_index"))) !! k
      = Some d.
Proof.
  assert (VStr "table_search_index" ∈ sample_supported) as Hv.
  { unfold supported. do 3 apply list_elem_of_further. apply list_elem_of_here. }
  exact (conj Hv
    (@getQbConfigs_fields_superset_common sample_SearchIndex
       sample_SuggestionField sample_t sample_BaseConfig _ Hv)).
Defined.

(** C5 at the dashboard category and the ['select'] type. *)
Lemma getQbConfigs_select_types_literal_only_witness :
  VStr "dashboard_search_index" ∈ sample_supported ∧
  "select" ∈ ["multiselect"; "select"] ∧
  get_path (sample_getQbConfigs (VStr "dashboard_search_index"))
      ["types"; "select"; "excludeOperators"]
    = VArr [VStr "is_null"; VStr "is_not_null"] ∧
  get_path (sample_getQbConfigs (VStr "dashboard_search_index"))
      ["types"; "select"; "valueSources"]
    = VArr [VStr "value"].
Proof.
  assert (VStr "dashboard_search_index" ∈ sample_supported) as Hv.
  { unfold supported. do 2 apply list_elem_of_further. apply list_elem_of_here. }
  assert ("select" ∈ ["multiselect"; "select"]) as Hty.
  { apply list_elem_of_further, list_elem_of_here. }
  exact (conj Hv (conj Hty
    (@getQbConfigs_select_types_literal_only sample_SearchIndex
       sample_SuggestionField sample_t sample_BaseConfig _ _ Hv Hty))).
Defined.

(** C6 at the sample tokens, which are pairwise distinct. *)
Lemma getQbConfigs_table_paths_witness :
  (@TABLE sample_SearchIndex ∉
    [@MLMODEL sample_SearchIndex; @PIPELINE sample_SearchIndex;
     @DASHBOARD sample_SearchIndex]) ∧
  let fields := fields_of (sample_getQbConfigs (VStr "table_search_index")) in
  Forall (has_descriptor fields) (table_paths ++ common_paths ++ service_paths) ∧
  own fields !! "owner.name" = None ∧
  field_at fields "owner.name"
    = Some (get_path fields ["owner"; "subfields"; "name"]).
Proof.
  assert (@TABLE sample_SearchIndex ∉
    [@MLMODEL sample_SearchIndex; @PIPELINE sample_SearchIndex;
     @DASHBOARD sample_SearchIndex]) as Hne.
  { rewrite !not_elem_of_cons.
    repeat split; try discriminate. apply not_elem_of_nil. }
  exact (conj Hne
    (@getQbConfigs_table_paths sample_SearchIndex sample_SuggestionField
       sample_t sample_BaseConfig Hne)).
Defined.

(** C8 at the descriptor of service.name, a subfield of a struct. *)
Lemma registry_descriptors_ok_witness :
  let d := get_path sample_service ["service"; "subfields"; "name"] in
  (sample_service ∈ [ sample_common; sample_service;
      @tableQueryBuilderFields sample_SearchIndex sample_SuggestionField
        sample_t ] ∨
   ∃ v, sample_service = fields_of (sample_getQbConfigs v)) ∧
  descriptor_of sample_service d ∧
  descriptor_ok d.
Proof.
  cbv zeta.
  assert (sample_service ∈ [ sample_common; sample_service;
      @tableQueryBuilderFields sample_SearchIndex sample_SuggestionField
        sample_t ] ∨
   ∃ v, sample_service = fields_of (sample_getQbConfigs v)) as Hreg.
  { left. apply list_elem_of_further, list_elem_of_here. }
  assert (descriptor_of sample_service
            (get_path sample_service ["service"; "subfields"; "name"])) as Hd.
  { eapply (descriptor_sub _ "service"); [reflexivity |].
    eapply (descriptor_top _ "name"). reflexivity. }
  exact (conj Hreg (conj Hd
    (@registry_descriptors_ok sample_SearchIndex sample_SuggestionField
       sample_t sample_BaseConfig _ _ Hreg Hd))).
Defined.

(** C9 (as the code has it) with the identifiers 0, 1, 2. *)
Lemma emptyJsonTree_shape_witness :
  (∀ i j, sample_uuid i = sample_uuid j → i = j) ∧
  let tree := emptyJsonTree sample_uuid 0 in
  ∃ inner,
    get tree "id" = VStr "0" ∧
    group_with_only_child tree "1" inner ∧
    group_with_only_child inner "2" empty_rule ∧
    count_groups 3 tree = 2 ∧
    get_path empty_rule ["properties"; "field"] = VNull ∧
    get_path empty_rule ["properties"; "operator"] = VNull ∧
    get_path empty_rule ["properties"; "value"] = VArr [] ∧
    get_path empty_rule ["properties"; "valueSrc"] = VArr [] ∧
    NoDup ["0"; "1"; "2"].
Proof.
  assert (∀ i j, sample_uuid i = sample_uuid j → i = j) as Hinj.
  { intros i j. apply pretty_nat_inj. }
  exact (conj Hinj (emptyJsonTree_shape sample_uuid 0 Hinj)).
Defined.

(** C10 at the sample tokens. *)
Lemma getQbConfigs_service_categories_equal_witness :
  @TOPIC sample_SearchIndex ≠ @TABLE sample_SearchIndex ∧
  sample_getQbConfigs (VStr "mlmodel_search_index")
    = @service_config sample_SearchIndex sample_SuggestionField
        sample_t sample_BaseConfig ∧
  sample_getQbConfigs (VStr "pipeline_search_index")
    = @service_config sample_SearchIndex sample_SuggestionField
        sample_t sample_BaseConfig ∧
  sample_getQbConfigs (VStr "dashboard_search_index")
    = @service_config sample_SearchIndex sample_SuggestionField
        sample_t sample_BaseConfig ∧
  sample_getQbConfigs (VStr "topic_search_index")
    = @service_config sample_SearchIndex sample_SuggestionField
        sample_t sample_BaseConfig.
Proof.
  assert (@TOPIC sample_SearchIndex ≠ @TABLE sample_SearchIndex) as Hne
    by discriminate.
  exact (conj Hne
    (@getQbConfigs_service_categories_equal sample_SearchIndex
       sample_SuggestionField sample_t sample_BaseConfig Hne)).
Defined.

(** ** Where the code departs from the specification *)

(** C4 as stated fails for the empty string: the request carries the
    empty string, not the wildcard. *)
Lemma autocomplete_empty_query_not_wildcard :
  get (request (autocomplete (VStr "table_search_index") VUndefined (VStr "")))
      "query" = VStr "" ∧
  get (request (autocomplete (VStr "table_search_index") VUndefined (VStr "")))
      "query" ≠ VStr "*".
Proof. split; [reflexivity | discriminate]. Qed.

(** C9 as stated fails: the root group of [emptyJsonTree] does not hold
    the empty rule as its only child (its only child is a group), and
    the tree has two group nodes, not one. *)
Lemma emptyJsonTree_not_single_rule_group :
  ¬ (∃ k, group_with_only_child (emptyJsonTree sample_uuid 0) k empty_rule) ∧
  count_groups 3 (emptyJsonTree sample_uuid 0) ≠ 1.
Proof.
  split.
  - intros (k & _ & Hchild).
    apply (f_equal (λ m, (λ child, get child "type") <$> m !! "1")) in Hchild.
    rewrite lookup_singleton in Hchild.
    case_decide; vm_compute in Hchild; discriminate Hchild.
  - vm_compute. discriminate.
Qed.

(** ** The further properties at the sample instances *)

Local Abbreviation sample_table :=
  (@tableQueryBuilderFields sample_SearchIndex sample_SuggestionField
     sample_t).
Local Abbreviation sample_dashboard_fields :=
  (fields_of (sample_getQbConfigs (VStr "dashboard_search_index"))).
Local Abbreviation sample_service_name :=
  (get_path sample_service ["service"; "subfields"; "name"]).

Ltac not_in_list :=
  rewrite !not_elem_of_cons; repeat split; try discriminate;
  apply not_elem_of_nil.

Ltac sample_descriptor :=
  eapply (descriptor_sub _ "service"); [reflexivity |];
  eapply (descriptor_top _ "name"); reflexivity.

(** X2 at the sample response, whose objects are distinct. *)
Lemma autocomplete_distinct_objects_witness :
  NoDup sample_resp ∧
  get (on_response (autocomplete VNull VUndefined (VStr "al"))
         sample_store sample_resp) "values"
    = VArr (map (λ r, suggestion (get (sample_store r) "text")) sample_resp).
Proof.
  assert (NoDup sample_resp) as Hnd.
  { apply (bool_decide_unpack _). vm_compute. exact I. }
  exact (conj Hnd
    (autocomplete_distinct_objects VNull VUndefined (VStr "al")
       sample_store sample_resp Hnd)).
Defined.

(** X5 at the main widget of the select type. *)
Lemma getQbConfigs_overrides_only_named_witness :
  (["types"; "select"], ["widgets"; "excludeOperators"; "valueSources"])
    ∈ overrides ∧
  ("mainWidget" ∉ ["widgets"; "excludeOperators"; "valueSources"]) ∧
  get_path (sample_getQbConfigs (VStr "table_search_index"))
      (["types"; "select"] ++ ["mainWidget"])
    = get_path sample_BaseConfig (["types"; "select"] ++ ["mainWidget"]).
Proof.
  assert ((["types"; "select"],
           ["widgets"; "excludeOperators"; "valueSources"]) ∈ overrides)
    as Hin.
  { unfold overrides. do 4 apply list_elem_of_further.
    apply list_elem_of_here. }
  assert ("mainWidget" ∉ ["widgets"; "excludeOperators"; "valueSources"])
    as Hk by not_in_list.
  exact (conj Hin (conj Hk
    (@getQbConfigs_overrides_only_named sample_SearchIndex
       sample_SuggestionField sample_t sample_BaseConfig
       (VStr "table_search_index") _ _ _ Hin Hk))).
Defined.

(** X6 at the types of the table and the topic configurations. *)
Lemma getQbConfigs_differ_in_fields_only_witness :
  "types" ≠ "fields" ∧
  get (sample_getQbConfigs (VStr "table_search_index")) "types"
    = get (sample_getQbConfigs (VStr "topic_search_index")) "types".
Proof.
  assert ("types" ≠ "fields") as Hk by discriminate.
  exact (conj Hk
    (@getQbConfigs_differ_in_fields_only sample_SearchIndex
       sample_SuggestionField sample_t sample_BaseConfig
       (VStr "table_search_index") (VStr "topic_search_index") _ Hk)).
Defined.

(** X7 at the select type of the pipeline configuration. *)
Lemma getQbConfigs_like_wildcard_witness :
  "select" ∈ ["multiselect"; "select"] ∧
  get_path (sample_getQbConfigs (VStr "pipeline_search_index"))
      ["types"; "select"; "widgets"; "text"; "operators"]
    = VArr [VStr "like"; VStr "not_like"] ∧
  get_path (sample_getQbConfigs (VStr "pipeline_search_index"))
      ["operators"; "like"; "elasticSearchQueryType"]
    = VStr "wildcard" ∧
  get_path (sample_getQbConfigs (VStr "pipeline_search_index"))
      ["types"; "text"; "valueSources"]
    = VArr [VStr "value"].
Proof.
  assert ("select" ∈ ["multiselect"; "select"]) as Hty.
  { apply list_elem_of_further, list_elem_of_here. }
  exact (conj Hty
    (@getQbConfigs_like_wildcard sample_SearchIndex sample_SuggestionField
       sample_t sample_BaseConfig (VStr "pipeline_search_index") _ Hty)).
Defined.

(** X8 at the multiselect widget of the pipeline configuration. *)
Lemma getQbConfigs_async_widgets_witness :
  "multiselect" ∈ ["multiselect"; "select"] ∧
  let cfg := sample_getQbConfigs (VStr "pipeline_search_index") in
  get_path cfg ["widgets"; "multiselect"; "showSearch"] = VBool true ∧
  get_path cfg ["widgets"; "multiselect"; "showCheckboxes"] = VBool true ∧
  get_path cfg ["widgets"; "multiselect"; "useAsyncSearch"] = VBool true ∧
  get_path cfg ["widgets"; "multiselect"; "useLoadMore"] = VBool false ∧
  ∀ searchIndex suggestField search store resp,
    get (on_response (autocomplete searchIndex suggestField search) store resp)
        "hasMore"
      = get_path cfg ["widgets"; "multiselect"; "useLoadMore"].
Proof.
  assert ("multiselect" ∈ ["multiselect"; "select"]) as Hw
    by apply list_elem_of_here.
  exact (conj Hw
    (@getQbConfigs_async_widgets sample_SearchIndex sample_SuggestionField
       sample_t sample_BaseConfig (VStr "pipeline_search_index") _ Hw)).
Defined.

(** X9 at the service field of the dashboard configuration. *)
Lemma getQbConfigs_fields_from_registry_witness :
  own sample_dashboard_fields !! "service" = Some (get sample_service "service") ∧
  (holds sample_common "service" (get sample_service "service") ∨
   holds sample_service "service" (get sample_service "service") ∨
   holds sample_table "service" (get sample_service "service")).
Proof.
  assert (own sample_dashboard_fields !! "service"
            = Some (get sample_service "service")) as Hk by reflexivity.
  exact (conj Hk
    (@getQbConfigs_fields_from_registry sample_SearchIndex
       sample_SuggestionField sample_t sample_BaseConfig
       (VStr "dashboard_search_index") _ _ Hk)).
Defined.

(** X10 at the topic category. *)
Lemma getQbConfigs_service_fields_witness :
  VStr "topic_search_index" ∈ sample_supported ∧
  own sample_service
    ⊆ own (fields_of (sample_getQbConfigs (VStr "topic_search_index"))).
Proof.
  assert (VStr "topic_search_index" ∈ sample_supported) as Hv.
  { unfold supported. do 4 apply list_elem_of_further.
    apply list_elem_of_here. }
  exact (conj Hv
    (@getQbConfigs_service_fields sample_SearchIndex sample_SuggestionField
       sample_t sample_BaseConfig _ Hv)).
Defined.

(** X11 at the dashboard category. *)
Lemma getQbConfigs_table_fields_only_for_table_witness :
  VStr "dashboard_search_index" ≠ VStr (@TABLE sample_SearchIndex) ∧
  dom (own sample_dashboard_fields) ## dom (own sample_table) ∧
  Forall (λ p, field_at sample_dashboard_fields p = None) table_only_paths.
Proof.
  assert (VStr "dashboard_search_index" ≠ VStr (@TABLE sample_SearchIndex))
    as Hv by discriminate.
  exact (conj Hv
    (@getQbConfigs_table_fields_only_for_table sample_SearchIndex
       sample_SuggestionField sample_t sample_BaseConfig _ Hv)).
Defined.

(** X12 at the sample tokens. *)
Lemma getQbConfigs_table_fields_richest_witness :
  (@TABLE sample_SearchIndex ∉
    [@MLMODEL sample_SearchIndex; @PIPELINE sample_SearchIndex;
     @DASHBOARD sample_SearchIndex]) ∧
  let table_fields :=
    own (fields_of (sample_getQbConfigs (VStr "table_search_index"))) in
  own sample_common ⊆ table_fields ∧
  own sample_service ⊆ table_fields ∧
  own sample_table ⊆ table_fields ∧
  ∀ v, own (fields_of (sample_getQbConfigs v)) ⊆ table_fields.
Proof.
  assert (@TABLE sample_SearchIndex ∉
    [@MLMODEL sample_SearchIndex; @PIPELINE sample_SearchIndex;
     @DASHBOARD sample_SearchIndex]) as Hne by not_in_list.
  exact (conj Hne
    (@getQbConfigs_table_fields_richest sample_SearchIndex
       sample_SuggestionField sample_t sample_BaseConfig Hne)).
Defined.

(** X13 at the descriptor of service.name in the dashboard
    configuration. *)
Lemma descriptors_labelled_and_typed_witness :
  descriptor_of sample_dashboard_fields sample_service_name ∧
  ∃ label ty,
    get sample_service_name "label" = VStr label ∧
    get sample_service_name "type" = VStr ty ∧
    ty ∈ "!struct" :: leaf_types.
Proof.
  assert (descriptor_of sample_dashboard_fields sample_service_name) as Hd
    by sample_descriptor.
  exact (conj Hd
    (@descriptors_labelled_and_typed sample_SearchIndex
       sample_SuggestionField sample_t sample_BaseConfig
       (VStr "dashboard_search_index") _ Hd)).
Defined.

(** X14 at the same descriptor. *)
Lemma select_descriptors_have_values_witness :
  descriptor_of sample_dashboard_fields sample_service_name ∧
  (get sample_service_name "type" = VStr "select" →
     (∃ searchIndex suggestField,
        get_path sample_service_name ["fieldSettings"; "asyncFetch"]
          = VAutocomplete searchIndex suggestField ∧
        get_path sample_service_name ["fieldSettings"; "listValues"]
          = VUndefined) ∨
     (get_path sample_service_name ["fieldSettings"; "asyncFetch"]
        = VUndefined ∧
      ∃ x l, get_path sample_service_name ["fieldSettings"; "listValues"]
               = VArr (x :: l))) ∧
  (get sample_service_name "type" ≠ VStr "select" →
     get sample_service_name "fieldSettings" = VUndefined).
Proof.
  assert (descriptor_of sample_dashboard_fields sample_service_name) as Hd
    by sample_descriptor.
  exact (conj Hd
    (@select_descriptors_have_values sample_SearchIndex
       sample_SuggestionField sample_t sample_BaseConfig
       (VStr "dashboard_search_index") _ Hd)).
Defined.

(** X15 at the same descriptor. *)
Lemma descriptors_widget_props_and_defaults_witness :
  descriptor_of sample_dashboard_fields sample_service_name ∧
  (get sample_service_name "type" = VStr "text" ∨
   get sample_service_name "type" = VStr "select" →
     get_path sample_service_name ["mainWidgetProps"; "fullWidth"]
       = get (mainWidgetProps sample_t) "fullWidth" ∧
     get_path sample_service_name ["mainWidgetProps"; "valueLabel"]
       = get (mainWidgetProps sample_t) "valueLabel" ∧
     get sample_service_name "defaultValue" = VUndefined) ∧
  (get sample_service_name "type" = VStr "boolean" →
     get sample_service_name "mainWidgetProps" = VUndefined ∧
     get sample_service_name "defaultValue" = VBool true) ∧
  (get sample_service_name "type" = VStr "!struct" →
     get sample_service_name "mainWidgetProps" = VUndefined ∧
     get sample_service_name "defaultValue" = VUndefined).
Proof.
  assert (descriptor_of sample_dashboard_fields sample_service_name) as Hd
    by sample_descriptor.
  exact (conj Hd
    (@descriptors_widget_props_and_defaults sample_SearchIndex
       sample_SuggestionField sample_t sample_BaseConfig
       (VStr "dashboard_search_index") _ Hd)).
Defined.

(** X16 at the dashboard category. *)
Lemma getQbConfigs_service_suggestions_witness :
  VStr "dashboard_search_index" ∈ sample_supported ∧
  ∃ d call,
    field_at sample_dashboard_fields "service.name" = Some d ∧
    call_asyncFetch (get_path d ["fieldSettings"; "asyncFetch"]) (VStr "my")
      = Some call ∧
    get (request call) "searchIndex" = VStr "table_search_index" ∧
    get (request call) "field" = VStr "service_suggest".
Proof.
  assert (VStr "dashboard_search_index" ∈ sample_supported) as Hv.
  { unfold supported. do 2 apply list_elem_of_further.
    apply list_elem_of_here. }
  exact (conj Hv
    (@getQbConfigs_service_suggestions sample_SearchIndex
       sample_SuggestionField sample_t sample_BaseConfig _ (VStr "my") Hv)).
Defined.

(** X18 at the sample tokens. *)
Lemma dropdown_items_resolution_witness :
  (@TABLE sample_SearchIndex ∉
    [@MLMODEL sample_SearchIndex; @PIPELINE sample_SearchIndex;
     @DASHBOARD sample_SearchIndex]) ∧
  Forall
    (item_resolves (fields_of (sample_getQbConfigs (VStr "table_search_index"))))
    (COMMON_DROPDOWN_ITEMS sample_t ++ TABLE_DROPDOWN_ITEMS sample_t)%list ∧
  ∀ v,
    Forall (λ item, ¬ item_resolves (fields_of (sample_getQbConfigs v)) item)
      (DASHBOARD_DROPDOWN_ITEMS sample_t ++
       PIPELINE_DROPDOWN_ITEMS sample_t)%list.
Proof.
  assert (@TABLE sample_SearchIndex ∉
    [@MLMODEL sample_SearchIndex; @PIPELINE sample_SearchIndex;
     @DASHBOARD sample_SearchIndex]) as Hne by not_in_list.
  exact (conj Hne
    (@dropdown_items_resolution sample_SearchIndex sample_SuggestionField
       sample_t sample_BaseConfig Hne)).
Defined.

(** X19 at the user index and the dropdown item of the owner. *)
Lemma dropdown_items_unrecognized_witness :
  let item := literal [ "label" =: VStr "label.owner";
                        "key" =: VStr "owner.name" ] in
  (VStr "user_search_index" ∉ sample_supported) ∧
  item ∈ ALL_DROPDOWN_ITEMS sample_t ∧
  (item_resolves (fields_of (sample_getQbConfigs (VStr "user_search_index")))
     item ↔
   ∃ k, k ∈ MISC_FIELDS ∧ item_key item = VStr k).
Proof.
  cbv zeta.
  assert (VStr "user_search_index" ∉ sample_supported) as Hv.
  { unfold supported. not_in_list. }
  assert (literal [ "label" =: VStr "label.owner"; "key" =: VStr "owner.name" ]
            ∈ ALL_DROPDOWN_ITEMS sample_t) as Hitem
    by apply list_elem_of_here.
  exact (conj Hv (conj Hitem
    (@dropdown_items_unrecognized sample_SearchIndex sample_SuggestionField
       sample_t sample_BaseConfig _ _ Hv Hitem))).
Defined.

(** X21 at the tab of the activity feeds. *)
Lemma getCurrentDatabaseSchemaDetailsTab_round_trip_witness :
  let tab := literal [ "name" =: VStr "Activity Feeds";
                       "path" =: VStr "activity_feed";
                       "field" =: VStr "activity_feed" ] in
  databaseSchemaDetailsTabs (VStr "activity_feed") !! 1%nat = Some tab ∧
  getCurrentDatabaseSchemaDetailsTab (get tab "path") = 2%Z.
Proof.
  cbv zeta.
  assert (databaseSchemaDetailsTabs (VStr "activity_feed") !! 1%nat
            = Some (literal [ "name" =: VStr "Activity Feeds";
                              "path" =: VStr "activity_feed";
                              "field" =: VStr "activity_feed" ])) as Htab
    by reflexivity.
  exact (conj Htab
    (getCurrentDatabaseSchemaDetailsTab_round_trip
       (VStr "activity_feed") 1 _ Htab)).
Defined.

(** X22 at two calls on the same names. *)
Lemma getQueryStringForSchemaTables_injective_witness :
  let service := literal [ "name" =: VStr "mysql" ] in
  let database := literal [ "name" =: VStr "shop" ] in
  let schema := literal [ "name" =: VStr "public" ] in
  let q := "(service.name:mysql) AND (database.name:shop) AND (databaseSchema.name:public)" in
  read service "name" = Some (VStr "mysql") ∧
  read database "name" = Some (VStr "shop") ∧
  has_char ")" "mysql" = false ∧
  has_char ")" "shop" = false ∧
  getQueryStringForSchemaTables service database schema = Some q ∧
  ("mysql" = "mysql" ∧ "shop" = "shop" ∧
   read schema "name" ≫= template_text = read schema "name" ≫= template_text).
Proof.
  cbv zeta.
  do 5 (split; [reflexivity |]).
  exact (getQueryStringForSchemaTables_injective
    (literal [ "name" =: VStr "mysql" ]) (literal [ "name" =: VStr "shop" ])
    (literal [ "name" =: VStr "public" ])
    (literal [ "name" =: VStr "mysql" ]) (literal [ "name" =: VStr "shop" ])
    (literal [ "name" =: VStr "public" ])
    "mysql" "shop" "mysql" "shop" _
    eq_refl eq_refl eq_refl eq_refl eq_refl eq_refl eq_refl eq_refl
    eq_refl eq_refl).
Defined.

(** X23 at the form whose name holds spaces only. *)
Lemma handleSave_refuses_blank_name_witness :
  sample_trim (AddGlossaryTerm.name sample_blank_form) = "" ∧
  AddGlossaryTerm.handleSave sample_trim VUndefined
      (literal [ "id" =: VStr "g1" ]) (VStr "text") sample_blank_form
    = ({| AddGlossaryTerm.showErrorMsg := literal [ "name" =: VBool true ];
          AddGlossaryTerm.name := AddGlossaryTerm.name sample_blank_form;
          AddGlossaryTerm.showRevieweModal := false;
          AddGlossaryTerm.showRelatedTermsModal := false;
          AddGlossaryTerm.reviewer := AddGlossaryTerm.reviewer sample_blank_form;
          AddGlossaryTerm.synonyms := AddGlossaryTerm.synonyms sample_blank_form;
          AddGlossaryTerm.referances :=
            AddGlossaryTerm.referances sample_blank_form |}, None).
Proof.
  assert (sample_trim (AddGlossaryTerm.name sample_blank_form) = "") as Hname
    by reflexivity.
  exact (conj Hname
    (handleSave_refuses_blank_name sample_trim VUndefined
       (literal [ "id" =: VStr "g1" ]) (VStr "text") sample_blank_form Hname)).
Defined.

Local Abbreviation sample_handleSave :=
  (AddGlossaryTerm.handleSave sample_trim VUndefined
     (literal [ "id" =: VStr "g1" ]) (VStr "text") sample_form).



